(** * web3-extensions: the block locator and the fee estimator

  A shallow embedding of [block], [findBlock] and [estimateGasPrice]
  (network module) over a snapshot of the web3 RPC client.

  Conventions of the embedding.
  - JavaScript numbers that hold block numbers and block timestamps are
    integers ([Z]).  Quotients ([timestamp / 1000], the average block
    duration, the estimated distance before [Math.floor]) are exact
    rationals ([Q]); [Number.POSITIVE_INFINITY] is a constructor of
    [Distance].
  - An [async] function is a computation [M A]: it reads the client
    snapshot, records every RPC request it issues, in order, and ends with
    a value, with a thrown error, or without an answer when the [while]
    loop is cut by the fuel.
  - [BigNumber] values are exact rationals, with [None] for [NaN].
  - [Network.findBlock] computes in exact rationals; [Double.findBlock] is
    the same function with its numbers in double precision.  The two agree
    wherever the quotients are representable, which is where the general
    statements about [findBlock] are made; evaluations of the code at a
    given input are made in double precision. *)

From Stdlib Require Import ZArith QArith Qround Qabs List String Ascii Bool Lia Lqa.
From Stdlib Require Import Permutation Sorted.
From Stdlib Require Floats Uint63.
Import ListNotations.

Open Scope Z_scope.

(** ** JavaScript numbers *)

Module Js.

Definition Math_abs (x : Q) : Q := Qabs x.

Definition Math_floor (x : Q) : Z := Qfloor x.

(** [Math.max(a, b)] on finite numbers. *)
Definition Math_max (a b : Q) : Q := if Qle_bool a b then b else a.

(** [a >= b] and [a > b] on finite numbers. *)
Definition geb (a b : Q) : bool := Qle_bool b a.
Definition gtb (a b : Q) : bool := negb (Qle_bool a b).

(** The values taken by [closestDistance]: [Number.POSITIVE_INFINITY] at
    first, then [Math.abs] of an integer. *)
Inductive Distance : Type :=
| POSITIVE_INFINITY
| Finite (d : Z).

(** [n > closestDistance] for an integer [n]. *)
Definition exceeds (n : Z) (closestDistance : Distance) : bool :=
  match closestDistance with
  | POSITIVE_INFINITY => false
  | Finite d => d <? n
  end.

(** [x || dflt] on a number that may be absent: [undefined] and [0] are
    both falsy. *)
Definition or_default (x : option Z) (dflt : Z) : Z :=
  match x with
  | None => dflt
  | Some v => if v =? 0 then dflt else v
  end.

End Js.

(** ** The RPC client *)

Module Rpc.

(** What [eth.getBlock] is asked for. *)
Inductive BlockId : Type :=
| Latest
| Pending
| Num (n : Z).

(** [BlockInfo]: the fields this code reads. [timestamp] is already a
    number ([block] runs [parseInt] on a string timestamp). *)
Record BlockInfo : Type := mkBlock {
  number : Z;
  timestamp : Z;
  baseFeePerGas : option Z
}.

(** The [reward] field of a fee history: one row per sampled block, one
    string per requested percentile. *)
Record FeeHistory : Type := mkFeeHistory {
  reward : list (list string)
}.

(** A request sent to the client. *)
Inductive Call : Type :=
| GetBlock (id : BlockId)
| GetBlockNumber
| GetFeeHistory (length : Z) (anchor : BlockId) (percentiles : list Z).

(** A snapshot of the client: the answer to each request, [None] when the
    request is rejected (or yields no block). *)
Record Web3 : Type := mkWeb3 {
  eth_getBlock : BlockId -> option BlockInfo;
  eth_getBlockNumber : option Z;
  eth_getFeeHistory : Z -> BlockId -> list Z -> option FeeHistory
}.

End Rpc.

(** ** Asynchronous computations *)

Module Async.
Import Rpc.

Inductive Error : Type :=
| FutureTimestampError (timestamp : Z)
    (* findBlock: <date of timestamp> is in the future *)
| GenesisBoundaryError (reportedTimestamp : Z)
    (* findBlock: target block is before the genesis block at <date> *)
| RpcError (c : Call).

Inductive Outcome (A : Type) : Type :=
| Ok (a : A)
| Throw (e : Error)
| OutOfFuel.
Arguments Ok {A} a.
Arguments Throw {A} e.
Arguments OutOfFuel {A}.

(** A computation reads the client and yields an outcome and the requests
    it has issued. *)
Definition M (A : Type) : Type := Web3 -> Outcome A * list Call.

Definition ret {A} (a : A) : M A := fun _ => (Ok a, []).

Definition throw {A} (e : Error) : M A := fun _ => (Throw e, []).

Definition out_of_fuel {A} : M A := fun _ => (OutOfFuel, []).

Definition bind {A B} (m : M A) (k : A -> M B) : M B :=
  fun w =>
    match m w with
    | (Ok a, q1) => let (r, q2) := k a w in (r, q1 ++ q2)
    | (Throw e, q1) => (Throw e, q1)
    | (OutOfFuel, q1) => (OutOfFuel, q1)
    end.

(** [m.catch(() => dflt)] *)
Definition catch {A} (m : M A) (dflt : A) : M A :=
  fun w =>
    match m w with
    | (Throw _, q) => (Ok dflt, q)
    | r => r
    end.

Definition request {A} (c : Call) (answer : Web3 -> option A) : M A :=
  fun w =>
    (match answer w with
     | Some a => Ok a
     | None => Throw (RpcError c)
     end, [c]).

Definition getBlock (id : BlockId) : M BlockInfo :=
  request (GetBlock id) (fun w => eth_getBlock w id).

Definition getBlockNumber : M Z :=
  request GetBlockNumber eth_getBlockNumber.

Definition getFeeHistory (length : Z) (anchor : BlockId) (percentiles : list Z)
  : M FeeHistory :=
  request (GetFeeHistory length anchor percentiles)
          (fun w => eth_getFeeHistory w length anchor percentiles).

(** [Promise.all([a, b, c])]: the three requests are all issued; the result
    is rejected when one of them is (here with the first rejection in
    array order). *)
Definition Promise_all3 {A B C} (a : M A) (b : M B) (c : M C) : M (A * B * C) :=
  fun w =>
    let (ra, qa) := a w in
    let (rb, qb) := b w in
    let (rc, qc) := c w in
    (match ra, rb, rc with
     | Ok x, Ok y, Ok z => Ok (x, y, z)
     | Throw e, _, _ => Throw e
     | OutOfFuel, _, _ => OutOfFuel
     | _, Throw e, _ => Throw e
     | _, OutOfFuel, _ => OutOfFuel
     | _, _, Throw e => Throw e
     | _, _, OutOfFuel => OutOfFuel
     end, qa ++ qb ++ qc).

Declare Scope async_scope.
Delimit Scope async_scope with async.
Notation "x <- m ;; k" := (bind m (fun x => k))
  (at level 61, m at next level, right associativity) : async_scope.

End Async.

(** ** utils: BigNumber helpers *)

Module Utils.

(** A [BigNumber]: an exact rational, or [NaN]. *)
Definition BN : Type := option Q.

Definition NaN : BN := None.

Definition zero : BN := Some 0%Q.

Definition bn_of_Z (n : Z) : BN := Some (inject_Z n).

Definition times (a : BN) (q : Q) : BN := option_map (fun x => (x * q)%Q) a.

Definition plus (a b : BN) : BN :=
  match a, b with
  | Some x, Some y => Some (x + y)%Q
  | _, _ => NaN
  end.

(** Rounding to the nearest integer, a tie going away from zero
    ([ROUND_HALF_UP], the rounding mode [integerValue()] uses when none is
    configured). *)
Definition round_half_up (x : Q) : Z :=
  if Qle_bool 0 x then Qfloor (x + (1 # 2)) else Qceiling (x - (1 # 2)).

Definition integerValue (a : BN) : BN :=
  option_map (fun x => inject_Z (round_half_up x)) a.

(** The value of a character in the alphabet [0-9a-z] of the [BigNumber]
    constructor. *)
Definition digitValue (c : ascii) : option Z :=
  let n := Z.of_nat (nat_of_ascii c) in
  if (48 <=? n) && (n <=? 57) then Some (n - 48)
  else if (97 <=? n) && (n <=? 122) then Some (n - 87)
  else None.

(** The digits of [s] read in base [base], most significant first. *)
Fixpoint digitsValue (base : Z) (s : string) (acc : Z) : option Z :=
  match s with
  | EmptyString => Some acc
  | String c s' =>
      match digitValue c with
      | Some d => if d <? base then digitsValue base s' (base * acc + d) else None
      | None => None
      end
  end.

Definition lowerAscii (c : ascii) : ascii :=
  let n := nat_of_ascii c in
  if ((65 <=? n)%nat && (n <=? 90)%nat)%bool then ascii_of_nat (n + 32) else c.

Fixpoint lowerString (s : string) : string :=
  match s with
  | EmptyString => EmptyString
  | String c s' => String (lowerAscii c) (lowerString s')
  end.

Fixpoint hasLowerLetter (s : string) : bool :=
  match s with
  | EmptyString => false
  | String c s' =>
      let n := nat_of_ascii c in
      ((97 <=? n)%nat && (n <=? 122)%nat)%bool || hasLowerLetter s'
  end.

(** A string of digits: read as it is, or, when that fails and the string
    has no lower-case letter, read in lower case (['FF'] as well as ['ff'],
    but not ['Ff']). *)
Definition readDigits (base : Z) (s : string) : option Z :=
  match s with
  | EmptyString => None
  | _ =>
      match digitsValue base s 0 with
      | Some v => Some v
      | None => if hasLowerLetter s then None else digitsValue base (lowerString s) 0
      end
  end.

(** The base announced by the letter of a prefix [0x], [0b], [0o]. *)
Definition prefixBase (c : ascii) : option Z :=
  match c with
  | "x"%char | "X"%char => Some 16
  | "b"%char | "B"%char => Some 2
  | "o"%char | "O"%char => Some 8
  | _ => None
  end.

(** A string that is not a number in base [base] as it stands is read once
    more without a prefix that announces this base. *)
Fixpoint readBody (base : Z) (s : string) : option Z :=
  match readDigits base s with
  | Some v => Some v
  | None =>
      match s with
      | String "0" (String p rest) =>
          match prefixBase p with
          | Some b => if b =? base then readBody base rest else None
          | None => None
          end
      | _ => None
      end
  end.

(** Modelled from the spec: [bn] of the utils module is not among the
    sources, and the specification has no text for it.  [bn(n, base)] is
    taken as the wrapper of the [BigNumber] constructor that its uses show:
    zero for a falsy argument ([undefined], the empty string), else
    [new BigNumber(n, base)].  The model reads an optional minus sign, the
    prefixes and the digits; a string with white space, a plus sign or a
    fraction point is [NaN] here. *)
Definition bn_base (n : option string) (base : Z) : BN :=
  match n with
  | None => zero
  | Some EmptyString => zero
  | Some (String "-" s) => option_map (fun m => inject_Z (- m)) (readBody base s)
  | Some s => option_map inject_Z (readBody base s)
  end.

(** Modelled from the spec: [bn] of the utils module is not among the
    sources.  [bn(n)] of a number is that number. *)
Definition bn (n : Z) : BN := bn_of_Z n.

Fixpoint insert (x : Q) (l : list Q) : list Q :=
  match l with
  | [] => [x]
  | y :: l' => if Qle_bool x y then x :: l else y :: insert x l'
  end.

Definition sort (l : list Q) : list Q := fold_right insert [] l.

Fixpoint allFinite (arr : list BN) : option (list Q) :=
  match arr with
  | [] => Some []
  | None :: _ => None
  | Some x :: arr' => option_map (cons x) (allFinite arr')
  end.

(** The middle element of an ordered sequence of odd length, the mean of
    the two central elements for an even length, zero for the empty
    sequence. *)
Definition middle (sorted : list Q) : Q :=
  let n := List.length sorted in
  match n with
  | O => 0%Q
  | _ =>
      let midIndex := Nat.div n 2 in
      if Nat.even n
      then ((nth (midIndex - 1) sorted 0 + nth midIndex sorted 0) / 2)%Q
      else nth midIndex sorted 0%Q
  end.

(** Modelled from the spec: [median] of the utils module is not among the
    sources.  The median of the values put in ascending order: the middle
    element if their number is odd, else the arithmetic mean of the two
    central elements; zero for the empty sequence.  A [NaN] among the
    values makes the median [NaN]. *)
Definition median (arr : list BN) : BN := option_map (fun xs => middle (sort xs)) (allFinite arr).

End Utils.

(** ** timing: retry *)

Module Timing.
Import Async.

(** Modelled from the spec: [keepTrying] of the timing module is not among
    the sources.  It runs the operation, runs it again after a failure, up
    to [retries] more times, and rethrows the last error once the attempts
    are exhausted. *)
Fixpoint keepTrying {A} (retries : nat) (fn : M A) : M A :=
  fun w =>
    match fn w with
    | (Throw e, q) =>
        match retries with
        | O => (Throw e, q)
        | S retries' => let (r, q') := keepTrying retries' fn w in (r, q ++ q')
        end
    | r => r
    end.

End Timing.

(** ** network: block and findBlock *)

Module Network.
Import Js Rpc Async Utils Timing.
Local Open Scope async_scope.

(** [block(blockHashOrBlockNumber?)]: asks the client for
    [blockHashOrBlockNumber || "latest"]; the number [0] is falsy, as is
    the absent argument. *)
Definition blockId (blockHashOrBlockNumber : option Z) : BlockId :=
  match blockHashOrBlockNumber with
  | None => Latest
  | Some n => if n =? 0 then Latest else Num n
  end.

Definition block (blockHashOrBlockNumber : option Z) : M BlockInfo :=
  getBlock (blockId blockHashOrBlockNumber).

(** [Math.max(1, (currentBlock.timestamp - candidate.timestamp) / 10_000)] *)
Definition avgBlockDurationSec (currentBlock candidate : BlockInfo) : Q :=
  Math_max 1 (inject_Z (timestamp currentBlock - timestamp candidate) / 10000).

Definition distanceInSeconds (candidate : BlockInfo) (targetTimestampSecs : Q) : Q :=
  inject_Z (timestamp candidate) - targetTimestampSecs.

Definition estDistanceInBlocks (candidate : BlockInfo) (targetTimestampSecs avg : Q) : Z :=
  Math_floor (distanceInSeconds candidate targetTimestampSecs / avg).

(** The [while] loop of [findBlock]; one unit of fuel per test of the loop
    condition. *)
Fixpoint search (fuel : nat) (targetTimestampSecs avg : Q)
         (candidate : BlockInfo) (closestDistance : Distance) : M BlockInfo :=
  match fuel with
  | O => out_of_fuel
  | S fuel' =>
      if geb (Math_abs (inject_Z (timestamp candidate) - targetTimestampSecs)) avg then
        let est := estDistanceInBlocks candidate targetTimestampSecs avg in
        if exceeds (Z.abs est) closestDistance then ret candidate
        else
          let targeting := number candidate - est in
          if targeting <? 0 then
            genesis <- block (Some 0) ;;
            throw (GenesisBoundaryError (timestamp genesis))
          else
            next <- block (Some targeting) ;;
            search fuel' targetTimestampSecs avg next (Finite (Z.abs est))
      else ret candidate
  end.

Definition findBlock (fuel : nat) (timestamp_ms : Z) : M BlockInfo :=
  let targetTimestampSecs := (inject_Z timestamp_ms / 1000)%Q in
  currentBlock <- block None ;;
  if gtb targetTimestampSecs (inject_Z (timestamp currentBlock)) then
    throw (FutureTimestampError timestamp_ms)
  else
    candidate <- block (Some (number currentBlock - 10000)) ;;
    search fuel targetTimestampSecs (avgBlockDurationSec currentBlock candidate)
           candidate POSITIVE_INFINITY.

(** *** estimateGasPrice *)

Record Tier : Type := mkTier {
  max : BN;
  tip : BN
}.

Record FeeEstimate : Type := mkFeeEstimate {
  slow : Tier;
  med : Tier;
  fast : Tier;
  baseFeePerGas : BN;
  pendingBlockNumber : Z;
  pendingBlockTimestamp : Z
}.

Definition default_percentiles : list Z := [10; 50; 90].
Definition default_length : Z := 5.

(** [_.map(history.reward, (r) => bn(r[i], 16))] *)
Definition rewardsAt (i : nat) (history : FeeHistory) : list BN :=
  map (fun r => bn_base (nth_error r i) 16) (reward history).

(** The function handed to [keepTrying]. *)
Definition estimateGasPrice_attempt (percentiles : list Z) (length : Z) : M FeeEstimate :=
  res <- Promise_all3
           (getBlock Pending)
           getBlockNumber
           (catch (getFeeHistory length Pending percentiles) (mkFeeHistory [])) ;;
  let '(pendingBlock, latestBlockNumber, history) := res in
  let baseFeePerGas := bn (or_default (Rpc.baseFeePerGas pendingBlock) (10 ^ 8)) in
  let slow := median (rewardsAt 0 history) in
  let med := median (rewardsAt 1 history) in
  let fast := median (rewardsAt 2 history) in
  ret {|
    slow := {| max := integerValue (plus (times baseFeePerGas (5 # 4)) slow);
               tip := integerValue slow |};
    med := {| max := integerValue (plus (times baseFeePerGas (5 # 4)) med);
              tip := integerValue med |};
    fast := {| max := integerValue (plus (times baseFeePerGas (5 # 4)) fast);
               tip := integerValue fast |};
    baseFeePerGas := baseFeePerGas;
    pendingBlockNumber := latestBlockNumber + 1;
    pendingBlockTimestamp := timestamp pendingBlock
  |}.

(** [estimateGasPrice(percentiles, length, w3)]: the client [w3] (or the one
    made from [NETWORK_URL], or the global instance) is the snapshot the
    computation reads; [retries] is the retry budget of [keepTrying]. *)
Definition estimateGasPrice (retries : nat) (percentiles : list Z) (length : Z)
  : M FeeEstimate :=
  keepTrying retries (estimateGasPrice_attempt percentiles length).

End Network.

(** ** findBlock in double precision *)

Module Double.
Import Js Rpc Async Network.
Local Open Scope async_scope.

(** The double that holds an integer (exactly, below 2^53). *)
Definition of_Z (z : Z) : PrimFloat.float :=
  match z with
  | Z0 => PrimFloat.of_uint63 (Uint63.of_Z 0)
  | Zpos _ => PrimFloat.of_uint63 (Uint63.of_Z z)
  | Zneg p => PrimFloat.opp (PrimFloat.of_uint63 (Uint63.of_Z (Zpos p)))
  end.

(** [Math.floor] of a finite double, as an integer. *)
Definition Math_floor (x : PrimFloat.float) : Z :=
  match FloatOps.Prim2SF x with
  | SpecFloat.S754_finite negative m e =>
      let n := if negative then Zneg m else Zpos m in
      if 0 <=? e then n * 2 ^ e else n / 2 ^ (- e)
  | _ => 0
  end.

(** [Math.max(1, x)] of a finite double. *)
Definition Math_max_1 (x : PrimFloat.float) : PrimFloat.float :=
  if PrimFloat.leb (of_Z 1) x then x else of_Z 1.

(** [Math.max(1, (currentBlock.timestamp - candidate.timestamp) / 10_000)] *)
Definition avgBlockDurationSec (currentBlock candidate : BlockInfo) : PrimFloat.float :=
  Math_max_1 (PrimFloat.div
                (PrimFloat.sub (of_Z (timestamp currentBlock)) (of_Z (timestamp candidate)))
                (of_Z 10000)).

Definition estDistanceInBlocks (candidate : BlockInfo)
           (targetTimestampSecs avg : PrimFloat.float) : Z :=
  Math_floor (PrimFloat.div
                (PrimFloat.sub (of_Z (timestamp candidate)) targetTimestampSecs) avg).

(** The [while] loop of [findBlock], its numbers being doubles. *)
Fixpoint search (fuel : nat) (targetTimestampSecs avg : PrimFloat.float)
         (candidate : BlockInfo) (closestDistance : Distance) : M BlockInfo :=
  match fuel with
  | O => out_of_fuel
  | S fuel' =>
      if PrimFloat.leb avg
           (PrimFloat.abs (PrimFloat.sub (of_Z (timestamp candidate)) targetTimestampSecs))
      then
        let est := estDistanceInBlocks candidate targetTimestampSecs avg in
        if exceeds (Z.abs est) closestDistance then ret candidate
        else
          let targeting := number candidate - est in
          if targeting <? 0 then
            genesis <- block (Some 0) ;;
            throw (GenesisBoundaryError (timestamp genesis))
          else
            next <- block (Some targeting) ;;
            search fuel' targetTimestampSecs avg next (Finite (Z.abs est))
      else ret candidate
  end.

Definition findBlock (fuel : nat) (timestamp_ms : Z) : M BlockInfo :=
  let targetTimestampSecs := PrimFloat.div (of_Z timestamp_ms) (of_Z 1000) in
  currentBlock <- block None ;;
  if PrimFloat.ltb (of_Z (timestamp currentBlock)) targetTimestampSecs then
    throw (FutureTimestampError timestamp_ms)
  else
    candidate <- block (Some (number currentBlock - 10000)) ;;
    search fuel targetTimestampSecs (avgBlockDurationSec currentBlock candidate)
           candidate POSITIVE_INFINITY.

End Double.

(** ** Synthetic clients *)

Module Chain.
Import Rpc.

(** A chain state: the number of the head block and the timestamp of each
    block.  Block [n] exists for [0 <= n <= headNumber]. *)
Record Chain : Type := mkChain {
  headNumber : Z;
  timestampOf : Z -> Z
}.

Definition blockAt (c : Chain) (n : Z) : BlockInfo :=
  mkBlock n (timestampOf c n) None.

Definition headBlock (c : Chain) : BlockInfo := blockAt c (headNumber c).

(** Block numbers are non-negative and increase one by one; timestamps do
    not decrease along the chain. *)
Definition valid_chain (c : Chain) : Prop :=
  0 <= headNumber c /\
  forall m n, 0 <= m -> m <= n -> n <= headNumber c ->
              timestampOf c m <= timestampOf c n.

(** The client that serves the chain: the head for ["latest"], block [n]
    for a number in range, and no block otherwise. *)
Definition web3_of_chain (c : Chain) : Web3 :=
  mkWeb3
    (fun id =>
       match id with
       | Latest => Some (headBlock c)
       | Pending => Some (mkBlock (headNumber c + 1) (timestampOf c (headNumber c)) None)
       | Num n =>
           if (0 <=? n) && (n <=? headNumber c) then Some (blockAt c n) else None
       end)
    (Some (headNumber c))
    (fun _ _ _ => None).

(** Twelve seconds per block, genesis at 1000000. *)
Definition twelve_seconds (head : Z) : Chain :=
  mkChain head (fun n => 1000000 + 12 * n).

(** One second per block, except that the head is mined within the same
    second as its parent. *)
Definition same_second_head : Chain :=
  mkChain 20000 (fun n => 1000000 + Z.min n 19999).

(** A chain with a constant number of seconds between consecutive blocks. *)
Definition uniform (genesis spacing head : Z) : Chain :=
  mkChain head (fun n => genesis + spacing * n).

(** One second per block on average, but the blocks come in pairs: two
    seconds between blocks [2k] and [2k+1], none between [2k+1] and
    [2k+2]. *)
Definition paired_blocks : Chain :=
  mkChain 30000 (fun n => 1000000 + 2 * (n / 2) + 2 * (n mod 2)).

(** A valid chain of 1.001 seconds per block on average. *)
Definition slow_drift : Chain :=
  mkChain 20000 (fun n => 1000000 + 1001 * n / 1000).

(** A client for the fee estimator: a pending block, a latest block number
    and, when the fee-history call is supported, its rows of rewards. *)
Definition gas_client (pendingBlock : BlockInfo) (latestBlockNumber : Z)
           (rewards : option (list (list string))) : Web3 :=
  mkWeb3
    (fun id => match id with Pending => Some pendingBlock | _ => None end)
    (Some latestBlockNumber)
    (fun _ _ _ => option_map mkFeeHistory rewards).

End Chain.

(** ** Hexadecimal numerals *)

Module Hex.

(** Digits, most significant first, each between 0 and 15. *)
Definition numeral (ds : list Z) : Prop :=
  ds <> [] /\ Forall (fun d => 0 <= d < 16) ds.

(** The integer a numeral denotes in base 16: each digit times the power
    of 16 of its position. *)
Fixpoint base16 (ds : list Z) : Z :=
  match ds with
  | [] => 0
  | d :: ds' => d * 16 ^ Z.of_nat (List.length ds') + base16 ds'
  end.

Definition hexChar (d : Z) : ascii :=
  ascii_of_nat (Z.to_nat (if d <? 10 then 48 + d else 87 + d)).

(** The numeral written with the characters [0-9a-f]. *)
Fixpoint hexString (ds : list Z) : string :=
  match ds with
  | [] => EmptyString
  | d :: ds' => String (hexChar d) (hexString ds')
  end.

Definition hexCharUpper (d : Z) : ascii :=
  ascii_of_nat (Z.to_nat (if d <? 10 then 48 + d else 55 + d)).

(** The numeral written with the characters [0-9A-F]. *)
Fixpoint hexStringUpper (ds : list Z) : string :=
  match ds with
  | [] => EmptyString
  | d :: ds' => String (hexCharUpper d) (hexStringUpper ds')
  end.

(** A reward as a fee history writes it: hexadecimal digits, in lower or in
    upper case, after the prefix [0x] or without it. *)
Record Literal : Type := mkLiteral {
  prefixed : bool;
  upperCase : bool;
  digits : list Z
}.

Definition well_formed (l : Literal) : Prop := numeral (digits l).

Definition render (l : Literal) : string :=
  ((if prefixed l then "0x" else "")
   ++ (if upperCase l then hexStringUpper (digits l) else hexString (digits l)))%string.

Definition value (l : Literal) : Z := base16 (digits l).

(** The integers at position [i] of rows of three literals. *)
Definition column (i : nat) (rows : list (list Literal)) : list Z :=
  map (fun row => match nth_error row i with Some l => value l | None => 0 end) rows.

End Hex.

(** ** The revision of findBlock in src/network.ts *)

Module NetworkTs.
Import Rpc.

(** [(currentBlock.timestamp - candidate.timestamp) / 10_000]: this
    revision takes the quotient as it is. *)
Definition avgBlockDurationSec (currentBlock candidate : BlockInfo) : Q :=
  inject_Z (timestamp currentBlock - timestamp candidate) / 10000.

(** *** The table of networks and the current network *)

Local Open Scope string_scope.

(** An entry of [networks]. *)
Record Network : Type := mkNetwork {
  id : Z;
  name : string;
  shortname : string;
  publicRpcUrl : string
}.

(** [networks]: the keys of the object, in the order they are written, with
    their entries. *)
Definition networks : list (string * Network) :=
  [ ("eth", mkNetwork 1 "Ethereum" "eth" "https://eth.llamarpc.com");
    ("bsc", mkNetwork 56 "BinanceSmartChain" "bsc" "https://bsc-dataseed.binance.org");
    ("poly", mkNetwork 137 "Polygon" "poly" "https://polygon-rpc.com");
    ("arb", mkNetwork 42161 "Arbitrum" "arb"
                      "https://endpoints.omniatech.io/v1/arbitrum/one/public");
    ("avax", mkNetwork 43114 "Avalanche" "avax" "https://api.avax.network/ext/bc/C/rpc");
    ("oeth", mkNetwork 10 "Optimism" "oeth" "https://mainnet.optimism.io");
    ("ftm", mkNetwork 250 "Fantom" "ftm" "https://rpc.ftm.tools");
    ("one", mkNetwork 1666600000 "Harmony" "one" "https://api.harmony.one");
    ("klay", mkNetwork 8217 "Klaytn" "klay"
                       "https://public-node-api.klaytnapi.com/v1/cypress") ].

(** [_.find(networks, predicate)]: the first entry, in key order, that
    satisfies the predicate, or [undefined]. *)
Definition find_network (predicate : Network -> bool) : option Network :=
  List.find predicate (map snd networks).

(** [s.toLowerCase()] on a string of ASCII characters. *)
Definition lowerChar (c : ascii) : ascii :=
  let n := nat_of_ascii c in
  if ((65 <=? n)%nat && (n <=? 90)%nat)%bool then ascii_of_nat (n + 32) else c.

Fixpoint toLowerCase (s : string) : string :=
  match s with
  | EmptyString => EmptyString
  | String c s' => String (lowerChar c) (toLowerCase s')
  end.

Fixpoint ascii_only (s : string) : bool :=
  match s with
  | EmptyString => true
  | String c s' => ((nat_of_ascii c <? 128)%nat && ascii_only s')%bool
  end.

(** A web3 object: the client, and the answer to [eth.getChainId()] ([None]
    when the request is rejected). *)
Record Instance : Type := mkInstance {
  client : Web3;
  eth_getChainId : option Z
}.

(** What the functions read from outside: [process.env.NETWORK],
    [process.env.NODE], and the [web3] of the hardhat module ([None] when
    requiring it throws or it has no [web3]). *)
Record Env : Type := mkEnv {
  NETWORK : option string;
  NODE : option string;
  hardhat_web3 : option Instance
}.

(** An environment variable is truthy when it is set and not empty. *)
Definition truthy (v : option string) : bool :=
  match v with
  | Some (String _ _) => true
  | _ => false
  end.

(** The module variable [web3Instance]; [None] for [undefined]. *)
Record State : Type := mkState {
  web3Instance : option Instance
}.

Inductive Failure : Type :=
| Web3Undefined   (* web3 undefined! call setWeb3Instance or install ... HardHat *)
| Rejected.       (* the rejection of an RPC request *)

Inductive Result (A : Type) : Type :=
| Returns (a : A)
| Throws (e : Failure).
Arguments Returns {A} a.
Arguments Throws {A} e.

(** [web3()] *)
Definition web3 (env : Env) (st : State) : Result Instance * State :=
  match web3Instance st with
  | Some i => (Returns i, st)
  | None =>
      let st' := if truthy (NODE env) then mkState (hardhat_web3 env) else st in
      match web3Instance st' with
      | Some i => (Returns i, st')
      | None => (Throws Web3Undefined, st')
      end
  end.

(** [setWeb3Instance(web3)] *)
Definition setWeb3Instance (web3 : option Instance) (st : State) : State :=
  mkState web3.

(** [hasWeb3Instance()] *)
Definition hasWeb3Instance (st : State) : bool :=
  match web3Instance st with
  | Some _ => true
  | None => false
  end.

(** [currentNetwork()] *)
Definition currentNetwork (env : Env) (st : State) : Result (option Network) * State :=
  if truthy (NETWORK env) then
    (Returns (find_network
                (fun n => String.eqb (shortname n)
                                     (toLowerCase (match NETWORK env with
                                                   | Some s => s
                                                   | None => EmptyString
                                                   end)))), st)
  else if hasWeb3Instance st then
    match web3 env st with
    | (Returns i, st') =>
        match eth_getChainId i with
        | Some chainId => (Returns (find_network (fun n => (id n =? chainId)%Z)), st')
        | None => (Throws Rejected, st')
        end
    | (Throws e, st') => (Throws e, st')
    end
  else (Returns None, st).

(** [chainId()]: [(await currentNetwork())?.id || 0] *)
Definition chainId (env : Env) (st : State) : Result Z * State :=
  match currentNetwork env st with
  | (Returns (Some n), st') => (Returns (if (id n =? 0)%Z then 0 else id n), st')
  | (Returns None, st') => (Returns 0, st')
  | (Throws e, st') => (Throws e, st')
  end.

End NetworkTs.

(** ** The behaviour the specification describes *)

Module Describe.
Import Js Rpc Async Utils Network.

(** The newly estimated distance is larger, in absolute value, than the
    one of the previous iteration (there is none before the first). *)
Definition grows (est : Z) (previous : Distance) : Prop :=
  match previous with
  | POSITIVE_INFINITY => False
  | Finite p => p < Z.abs est
  end.

(** The runs of the loop that return a block, as a relation between a
    candidate with the previous distance, the block returned and the
    requests made on the way (the induction principle of [search]):
    - the loop ends once the candidate's timestamp is within the average
      block duration of the target;
    - it also ends, with the current candidate and no request, when the
      estimated distance has grown;
    - otherwise the candidate is stepped by the floor of the distance in
      seconds divided by the average duration, and read again through
      [block]. *)
Inductive SearchRun (w : Web3) (target avg : Q)
  : BlockInfo -> Distance -> BlockInfo -> list Call -> Prop :=
| run_within c previous :
    (Qabs (inject_Z (timestamp c) - target) < avg)%Q ->
    SearchRun w target avg c previous c []
| run_grown c previous :
    (avg <= Qabs (inject_Z (timestamp c) - target))%Q ->
    grows (Qfloor ((inject_Z (timestamp c) - target) / avg)) previous ->
    SearchRun w target avg c previous c []
| run_step c previous next result requests :
    let est := Qfloor ((inject_Z (timestamp c) - target) / avg) in
    (avg <= Qabs (inject_Z (timestamp c) - target))%Q ->
    ~ grows est previous ->
    0 <= number c - est ->
    eth_getBlock w (blockId (Some (number c - est))) = Some next ->
    SearchRun w target avg next (Finite (Z.abs est)) result requests ->
    SearchRun w target avg c previous result
              (GetBlock (blockId (Some (number c - est))) :: requests).

(** A request the loop may issue: the latest block, or a block of positive
    number. *)
Definition loop_request (q : Call) : Prop :=
  q = GetBlock Latest \/ exists n, 0 < n /\ q = GetBlock (Num n).

(** The fee history an attempt works with: the client's answer, or the
    empty list of rewards substituted by the [catch]. *)
Definition historyOrEmpty (w : Web3) (length : Z) (percentiles : list Z) : FeeHistory :=
  match eth_getFeeHistory w length Pending percentiles with
  | Some history => history
  | None => mkFeeHistory []
  end.

(** *** The median, by counting *)

Definition count_below (x : Z) (samples : list Z) : nat :=
  List.length (filter (fun y => y <? x) samples).

Definition count_upto (x : Z) (samples : list Z) : nat :=
  List.length (filter (fun y => y <=? x) samples).

(** [x] stands at position [j], counted from 0, once the samples are put in
    ascending order: it is one of them, at most [j] samples are smaller and
    more than [j] are not larger. *)
Definition ranked (samples : list Z) (j : nat) (x : Z) : Prop :=
  In x samples /\ (count_below x samples <= j)%nat /\ (j < count_upto x samples)%nat.

(** The median as the specification defines it: the middle element of the
    ordered samples if their number is odd, else the arithmetic mean of the
    two central elements; zero for no sample. *)
Definition is_median (samples : list Z) (m : Q) : Prop :=
  let n := List.length samples in
  match n with
  | O => (m == 0)%Q
  | _ =>
      if Nat.odd n
      then exists x, ranked samples (n / 2) x /\ (m == inject_Z x)%Q
      else exists x y, ranked samples (n / 2 - 1) x /\ ranked samples (n / 2) y /\
                       (m == (inject_Z x + inject_Z y) / 2)%Q
  end.

(** The [max] of a tier is at least its [tip]; both are numbers, or both are
    [NaN]. *)
Definition max_covers_tip (tier : Tier) : Prop :=
  match tip tier, max tier with
  | Some t, Some m => (t <= m)%Q
  | None, None => True
  | _, _ => False
  end.

End Describe.

(** * Properties *)

Import Js Rpc Async Utils Timing Network Chain Hex Describe.

(** ** Arithmetic of the search *)

Section SearchArith.

Lemma geb_true (a b : Q) : geb a b = true <-> (b <= a)%Q.
Proof. unfold geb. apply Qle_bool_iff. Qed.

Lemma geb_false (a b : Q) : geb a b = false <-> (a < b)%Q.
Proof.
  unfold geb. split; intro H.
  - apply Qnot_le_lt. intro Hle. apply Qle_bool_iff in Hle. congruence.
  - destruct (Qle_bool b a) eqn:E; [|reflexivity].
    apply Qle_bool_iff in E. exfalso. apply (Qlt_not_le _ _ H E).
Qed.

Lemma gtb_true (a b : Q) : gtb a b = true <-> (b < a)%Q.
Proof.
  unfold gtb. rewrite negb_true_iff. apply (geb_false b a).
Qed.

Lemma gtb_false (a b : Q) : gtb a b = false <-> (a <= b)%Q.
Proof.
  unfold gtb. rewrite negb_false_iff. apply Qle_bool_iff.
Qed.



Lemma target_of_seconds (s : Z) : (inject_Z (s * 1000) / 1000 == inject_Z s)%Q.
Proof.
  rewrite inject_Z_mult. field.
Qed.

(** Without the floor the average duration falls below one second on a
    chain that produces two blocks per second. *)
Lemma NetworkTs_avgBlockDurationSec_below_1 :
  (NetworkTs.avgBlockDurationSec (mkBlock 20000 1010000 None) (mkBlock 10000 1005000 None)
   == 1 # 2)%Q.
Proof. reflexivity. Qed.

End SearchArith.

(** ** findBlock *)

Section FindBlock.

Lemma block_run (w : Web3) (arg : option Z) :
  block arg w =
  (match eth_getBlock w (blockId arg) with
   | Some b => Ok b
   | None => Throw (RpcError (GetBlock (blockId arg)))
   end, [GetBlock (blockId arg)]).
Proof. reflexivity. Qed.

Lemma bind_block_ok {B} (w : Web3) (arg : option Z) (b : BlockInfo) (k : BlockInfo -> M B) :
  eth_getBlock w (blockId arg) = Some b ->
  bind (block arg) k w = (fst (k b w), GetBlock (blockId arg) :: snd (k b w)).
Proof.
  intro H. unfold bind. rewrite block_run, H. now destruct (k b w).
Qed.

Lemma bind_block_fail {B} (w : Web3) (arg : option Z) (k : BlockInfo -> M B) :
  eth_getBlock w (blockId arg) = None ->
  bind (block arg) k w =
  (Throw (RpcError (GetBlock (blockId arg))), [GetBlock (blockId arg)]).
Proof.
  intro H. unfold bind. now rewrite block_run, H.
Qed.

Lemma search_S fuel target avg c cl :
  search (S fuel) target avg c cl =
  if geb (Math_abs (inject_Z (timestamp c) - target)) avg then
    if exceeds (Z.abs (estDistanceInBlocks c target avg)) cl then ret c
    else
      if number c - estDistanceInBlocks c target avg <? 0 then
        bind (block (Some 0))
             (fun genesis => throw (GenesisBoundaryError (timestamp genesis)))
      else
        bind (block (Some (number c - estDistanceInBlocks c target avg)))
             (fun next => search fuel target avg next
                                 (Finite (Z.abs (estDistanceInBlocks c target avg))))
  else ret c.
Proof. reflexivity. Qed.

(** One turn of the loop, by cases. *)
Lemma search_close fuel target avg c cl w :
  (Qabs (inject_Z (timestamp c) - target) < avg)%Q ->
  search (S fuel) target avg c cl w = (Ok c, []).
Proof.
  intro H. rewrite search_S. unfold Math_abs.
  apply geb_false in H. now rewrite H.
Qed.

Lemma search_guard fuel target avg c cl w :
  (avg <= Qabs (inject_Z (timestamp c) - target))%Q ->
  exceeds (Z.abs (estDistanceInBlocks c target avg)) cl = true ->
  search (S fuel) target avg c cl w = (Ok c, []).
Proof.
  intros H G. rewrite search_S. unfold Math_abs.
  apply geb_true in H. now rewrite H, G.
Qed.

Lemma search_genesis fuel target avg c cl w :
  (avg <= Qabs (inject_Z (timestamp c) - target))%Q ->
  exceeds (Z.abs (estDistanceInBlocks c target avg)) cl = false ->
  number c - estDistanceInBlocks c target avg < 0 ->
  search (S fuel) target avg c cl w =
  bind (block (Some 0)) (fun genesis => throw (GenesisBoundaryError (timestamp genesis))) w.
Proof.
  intros H G L. rewrite search_S. unfold Math_abs.
  apply geb_true in H. rewrite H, G.
  apply Z.ltb_lt in L. now rewrite L.
Qed.

Lemma search_step fuel target avg c cl w :
  (avg <= Qabs (inject_Z (timestamp c) - target))%Q ->
  exceeds (Z.abs (estDistanceInBlocks c target avg)) cl = false ->
  0 <= number c - estDistanceInBlocks c target avg ->
  search (S fuel) target avg c cl w =
  bind (block (Some (number c - estDistanceInBlocks c target avg)))
       (fun next => search fuel target avg next
                           (Finite (Z.abs (estDistanceInBlocks c target avg)))) w.
Proof.
  intros H G L. rewrite search_S. unfold Math_abs.
  apply geb_true in H. rewrite H, G.
  apply Z.ltb_ge in L. now rewrite L.
Qed.

(** What [findBlock] does once the head is known not to be older than the
    target. *)
Lemma findBlock_setup (w : Web3) (fuel : nat) (t : Z) (head : BlockInfo) :
  eth_getBlock w Latest = Some head ->
  (inject_Z t / 1000 <= inject_Z (timestamp head))%Q ->
  findBlock fuel t w =
  (fst (bind (block (Some (number head - 10000)))
             (fun candidate =>
                search fuel (inject_Z t / 1000) (avgBlockDurationSec head candidate)
                       candidate POSITIVE_INFINITY) w),
   GetBlock Latest ::
   snd (bind (block (Some (number head - 10000)))
             (fun candidate =>
                search fuel (inject_Z t / 1000) (avgBlockDurationSec head candidate)
                       candidate POSITIVE_INFINITY) w)).
Proof.
  intros Hhead Hle. unfold findBlock.
  rewrite (bind_block_ok w None head) by exact Hhead.
  apply gtb_false in Hle. rewrite Hle. reflexivity.
Qed.

(** C2. A target timestamp that, in seconds, lies strictly after the
    timestamp of the chain head makes [findBlock] throw
    [FutureTimestampError]; the request for the head is the only one it
    has issued. *)
Theorem findBlock_future_timestamp (w : Web3) (fuel : nat) (t : Z) (head : BlockInfo) :
  eth_getBlock w Latest = Some head ->
  (inject_Z (timestamp head) < inject_Z t / 1000)%Q ->
  findBlock fuel t w = (Throw (FutureTimestampError t), [GetBlock Latest]).
Proof.
  intros Hhead Hlt. unfold findBlock.
  rewrite (bind_block_ok w None head) by exact Hhead.
  apply gtb_true in Hlt. rewrite Hlt. reflexivity.
Qed.

Lemma findBlock_future_timestamp_witness :
  eth_getBlock (web3_of_chain (twelve_seconds 20000)) Latest
    = Some (headBlock (twelve_seconds 20000)) /\
  (inject_Z (timestamp (headBlock (twelve_seconds 20000))) < inject_Z 1240000001 / 1000)%Q /\
  findBlock 5 1240000001 (web3_of_chain (twelve_seconds 20000))
    = (Throw (FutureTimestampError 1240000001), [GetBlock Latest]).
Proof.
  split; [reflexivity|]. split; [reflexivity|].
  apply (findBlock_future_timestamp _ 5 1240000001 (headBlock (twelve_seconds 20000)));
    reflexivity.
Defined.

End FindBlock.

(** ** The search loop against its description *)

Section SearchLoop.

Lemma exceeds_true est previous :
  exceeds (Z.abs est) previous = true <-> grows est previous.
Proof.
  destruct previous; simpl.
  - split; [discriminate | tauto].
  - apply Z.ltb_lt.
Qed.

Lemma exceeds_false est previous :
  exceeds (Z.abs est) previous = false <-> ~ grows est previous.
Proof.
  rewrite <- exceeds_true. destruct (exceeds (Z.abs est) previous); split; congruence.
Qed.

Lemma search_sound fuel : forall w target avg c previous result requests,
  search fuel target avg c previous w = (Ok result, requests) ->
  SearchRun w target avg c previous result requests.
Proof.
  induction fuel as [|fuel IH]; intros w target avg c previous result requests H.
  - discriminate H.
  - rewrite search_S in H. unfold Math_abs in H.
    destruct (geb (Qabs (inject_Z (timestamp c) - target)) avg) eqn:Hgeb.
    + apply geb_true in Hgeb.
      destruct (exceeds (Z.abs (estDistanceInBlocks c target avg)) previous) eqn:Hex.
      * inversion H; subst. apply run_grown; [exact Hgeb|].
        now apply exceeds_true in Hex.
      * apply exceeds_false in Hex.
        destruct (number c - estDistanceInBlocks c target avg <? 0) eqn:Hneg.
        -- unfold bind in H. rewrite block_run in H.
           destruct (eth_getBlock w (blockId (Some 0))); discriminate H.
        -- apply Z.ltb_ge in Hneg.
           destruct (eth_getBlock w
                       (blockId (Some (number c - estDistanceInBlocks c target avg))))
             as [next|] eqn:Hnext.
           ++ rewrite (bind_block_ok w _ next) in H by exact Hnext.
              injection H as Hres Hreq. subst requests.
              apply (run_step w target avg c previous next); try assumption.
              apply IH. now apply injective_projections.
           ++ rewrite bind_block_fail in H by exact Hnext. discriminate H.
    + apply geb_false in Hgeb. inversion H; subst. now apply run_within.
Qed.

Lemma search_complete w target avg c previous result requests :
  SearchRun w target avg c previous result requests ->
  exists fuel, search fuel target avg c previous w = (Ok result, requests).
Proof.
  induction 1 as [c previous Hlt | c previous Hge Hgrow
                 | c previous next result requests est Hge Hgrow Hpos Hnext _ [fuel IH]].
  - exists 1%nat. now apply search_close.
  - exists 1%nat. apply search_guard; [exact Hge|]. now apply exceeds_true.
  - exists (S fuel).
    rewrite search_step; try assumption; [|now apply exceeds_false].
    rewrite (bind_block_ok w _ next) by exact Hnext.
    fold est. unfold estDistanceInBlocks, distanceInSeconds, Math_floor. fold est.
    now rewrite IH.
Qed.

End SearchLoop.

(** ** Requests below the genesis block *)

Section Genesis.

Lemma blockId_loop_request (n : Z) : 0 <= n -> loop_request (GetBlock (blockId (Some n))).
Proof.
  intro Hn. unfold blockId. destruct (n =? 0) eqn:E.
  - now left.
  - right. exists n. apply Z.eqb_neq in E. split; [lia | reflexivity].
Qed.

(** Inside the loop the guard holds: no request for a negative number is
    ever issued by [search]. *)
Lemma search_requests fuel : forall target avg c previous w,
  Forall loop_request (snd (search fuel target avg c previous w)).
Proof.
  induction fuel as [|fuel IH]; intros target avg c previous w.
  - constructor.
  - rewrite search_S.
    destruct (geb _ avg); [|constructor].
    destruct (exceeds _ previous); [constructor|].
    destruct (number c - estDistanceInBlocks c target avg <? 0) eqn:Hneg.
    + unfold bind. rewrite block_run.
      destruct (eth_getBlock w (blockId (Some 0))); simpl;
        (constructor; [now left | constructor]).
    + apply Z.ltb_ge in Hneg.
      destruct (eth_getBlock w
                  (blockId (Some (number c - estDistanceInBlocks c target avg))))
        as [next|] eqn:Hnext.
      * rewrite (bind_block_ok w _ next) by exact Hnext. simpl.
        constructor; [now apply blockId_loop_request | apply IH].
      * rewrite bind_block_fail by exact Hnext. simpl.
        constructor; [now apply blockId_loop_request | constructor].
Qed.

(** A step that would go below block 0 throws before the step is taken;
    the timestamp in the error is the one of the block that [block(0)]
    returns, which is the latest block. *)
Lemma search_below_genesis fuel target avg c previous w head :
  (avg <= Qabs (inject_Z (timestamp c) - target))%Q ->
  exceeds (Z.abs (estDistanceInBlocks c target avg)) previous = false ->
  number c - estDistanceInBlocks c target avg < 0 ->
  eth_getBlock w Latest = Some head ->
  search (S fuel) target avg c previous w =
  (Throw (GenesisBoundaryError (timestamp head)), [GetBlock Latest]).
Proof.
  intros Hge Hex Hneg Hhead.
  rewrite search_genesis by assumption.
  now rewrite (bind_block_ok w (Some 0) head) by exact Hhead.
Qed.

(** The reference block is requested without the guard: below 10,000
    blocks, [findBlock] asks the client for a negative block number. *)
Lemma findBlock_reference_request (w : Web3) (fuel : nat) (t : Z) (head : BlockInfo) :
  eth_getBlock w Latest = Some head ->
  (inject_Z t / 1000 <= inject_Z (timestamp head))%Q ->
  number head < 10000 ->
  exists rest,
    snd (findBlock fuel t w) =
    GetBlock Latest :: GetBlock (Num (number head - 10000)) :: rest.
Proof.
  intros Hhead Hle Hshort.
  rewrite (findBlock_setup w fuel t head Hhead Hle). simpl snd.
  assert (Hid : blockId (Some (number head - 10000)) = Num (number head - 10000)).
  { unfold blockId. destruct (number head - 10000 =? 0) eqn:E; [|reflexivity].
    apply Z.eqb_eq in E. lia. }
  destruct (eth_getBlock w (blockId (Some (number head - 10000)))) as [ref|] eqn:Href.
  - rewrite (bind_block_ok w _ ref) by exact Href. rewrite Hid. simpl. eauto.
  - rewrite bind_block_fail by exact Href. rewrite Hid. simpl. eauto.
Qed.

(** C1, evaluated.  On a chain of 5,001 blocks [findBlock] requests block
    -5000 from the client.  On a chain of 20,001 blocks whose genesis block
    has timestamp 1000000, a target before the genesis block makes the
    loop throw [GenesisBoundaryError] without a request for a negative
    number, but the error carries 1240000, the timestamp of the head:
    [block(0)] has asked for the latest block. *)
Theorem findBlock_genesis_boundary_evaluated :
  (forall fuel,
      findBlock fuel 1030000000 (web3_of_chain (twelve_seconds 5000)) =
      (Throw (RpcError (GetBlock (Num (-5000)))),
       [GetBlock Latest; GetBlock (Num (-5000))]))
  /\ (forall fuel,
         findBlock (S fuel) 999000000 (web3_of_chain (twelve_seconds 20000)) =
         (Throw (GenesisBoundaryError 1240000),
          [GetBlock Latest; GetBlock (Num 10000); GetBlock Latest]))
  /\ timestampOf (twelve_seconds 20000) 0 = 1000000
  /\ timestamp (headBlock (twelve_seconds 20000)) = 1240000.
Proof.
  repeat split; intro fuel; vm_compute; reflexivity.
Qed.

(** C3, evaluated.  On a chain of 10,001 blocks, twelve seconds apart, the
    reference block is asked for as [block(0)], which requests the latest
    block: the reference is the head itself and not block 0, the block
    10,000 behind it.  The average duration comes out as 1 second, where the
    block 10,000 behind the head gives 12, and with it [findBlock] at the
    timestamp of block 5000 estimates 60,000 blocks and throws the genesis
    error.  Elsewhere the formula is the one of the claim: 12 seconds
    between a head and a reference 120,000 seconds apart, and the floor of
    1 second when they are 5,000 seconds apart, where the revision of
    src/network.ts, which has no floor, uses one half. *)
Theorem findBlock_reference_block_evaluated :
  let c := twelve_seconds 10000 in
  let w := web3_of_chain c in
  block (Some (number (headBlock c) - 10000)) w = (Ok (headBlock c), [GetBlock Latest])
  /\ eth_getBlock w (Num 0) = Some (blockAt c 0)
  /\ Double.avgBlockDurationSec (headBlock c) (headBlock c) = Double.of_Z 1
  /\ Double.avgBlockDurationSec (headBlock c) (blockAt c 0) = Double.of_Z 12
  /\ timestampOf c 5000 * 1000 = 1060000000
  /\ (forall fuel,
         Double.findBlock (S fuel) 1060000000 w =
         (Throw (GenesisBoundaryError 1120000),
          [GetBlock Latest; GetBlock Latest; GetBlock Latest]))
  /\ (forall fuel,
         findBlock (S fuel) 1060000000 w =
         (Throw (GenesisBoundaryError 1120000),
          [GetBlock Latest; GetBlock Latest; GetBlock Latest]))
  /\ Double.avgBlockDurationSec (mkBlock 20000 1010000 None) (mkBlock 10000 1005000 None)
     = Double.of_Z 1
  /\ (NetworkTs.avgBlockDurationSec (mkBlock 20000 1010000 None) (mkBlock 10000 1005000 None)
      == 1 # 2)%Q.
Proof.
  cbv zeta. repeat split; try intro fuel; vm_compute; reflexivity.
Qed.

(** C4, evaluated.  On a chain of 20,001 blocks, twelve seconds apart, with
    the timestamp of the genesis block as target, the loop at block 10000
    estimates a distance of 10000 blocks and steps to number 0; [block(0)]
    requests the latest block, so the candidate becomes block 20000 and not
    block 0, which the client has; from there the estimate has grown and
    the head is returned. *)
Theorem search_step_to_zero_evaluated :
  let c := twelve_seconds 20000 in
  let w := web3_of_chain c in
  let target := PrimFloat.div (Double.of_Z (timestampOf c 0 * 1000)) (Double.of_Z 1000) in
  let avg := Double.avgBlockDurationSec (headBlock c) (blockAt c 10000) in
  avg = Double.of_Z 12
  /\ Double.estDistanceInBlocks (blockAt c 10000) target avg = 10000
  /\ eth_getBlock w (Num (10000 - 10000)) = Some (blockAt c 0)
  /\ (forall fuel,
         Double.search (S (S fuel)) target avg (blockAt c 10000) POSITIVE_INFINITY w =
         (Ok (headBlock c), [GetBlock Latest]))
  /\ number (headBlock c) = 20000
  /\ (forall fuel,
         Double.findBlock (S (S fuel)) (timestampOf c 0 * 1000) w =
         (Ok (headBlock c), [GetBlock Latest; GetBlock (Num 10000); GetBlock Latest]))
  /\ (forall fuel,
         findBlock (S (S fuel)) (timestampOf c 0 * 1000) w =
         (Ok (headBlock c), [GetBlock Latest; GetBlock (Num 10000); GetBlock Latest])).
Proof.
  cbv zeta. repeat split; try intro fuel; vm_compute; reflexivity.
Qed.

End Genesis.

(** ** The head's own timestamp *)

Section HeadTimestamp.





Lemma avg_of_slow_chain (head ref : BlockInfo) :
  10000 <= timestamp head - timestamp ref ->
  avgBlockDurationSec head ref = (inject_Z (timestamp head - timestamp ref) / 10000)%Q.
Proof.
  intro Hd. unfold avgBlockDurationSec, Math_max.
  assert (Hle : (1 <= inject_Z (timestamp head - timestamp ref) / 10000)%Q).
  { apply Qle_shift_div_l; [reflexivity|].
    change (1 * 10000)%Q with (inject_Z 10000). now rewrite <- Zle_Qle. }
  apply Qle_bool_iff in Hle. now rewrite Hle.
Qed.




(** The code at the witness, in double precision. *)
Lemma findBlock_head_timestamp_double :
  Double.findBlock 2 (timestamp (headBlock (twelve_seconds 20000)) * 1000)
                   (web3_of_chain (twelve_seconds 20000))
  = (Ok (headBlock (twelve_seconds 20000)),
     [GetBlock Latest; GetBlock (Num 10000); GetBlock (Num 20000)]).
Proof. vm_compute. reflexivity. Qed.

Lemma slow_drift_valid : valid_chain slow_drift.
Proof.
  unfold valid_chain, slow_drift. cbn [headNumber timestampOf].
  split; [lia|]. intros m n Hm Hmn Hn.
  apply Z.add_le_mono_l. apply Z.div_le_mono; lia.
Qed.

(** A head that is merely 10,000 seconds or more younger than the reference
    block does not suffice: at 1.001 seconds per block the quotient of the
    doubles is just below -10000, its floor is -10001, and [findBlock]
    requests a block above the head. *)
Lemma findBlock_head_timestamp_rounding :
  valid_chain slow_drift /\
  timestampOf slow_drift 20000 - timestampOf slow_drift 10000 = 10010 /\
  Double.estDistanceInBlocks
    (blockAt slow_drift 10000)
    (PrimFloat.div (Double.of_Z (timestampOf slow_drift 20000 * 1000)) (Double.of_Z 1000))
    (Double.avgBlockDurationSec (headBlock slow_drift) (blockAt slow_drift 10000))
  = -10001 /\
  Double.findBlock 2 (timestamp (headBlock slow_drift) * 1000) (web3_of_chain slow_drift)
  = (Throw (RpcError (GetBlock (Num 20001))),
     [GetBlock Latest; GetBlock (Num 10000); GetBlock (Num 20001)]).
Proof.
  split; [exact slow_drift_valid|]. repeat split; vm_compute; reflexivity.
Qed.

End HeadTimestamp.

(** ** estimateGasPrice *)

Section EstimateGasPrice.

Lemma keepTrying_ok {A} (retries : nat) (fn : M A) (w : Web3) (a : A) (q : list Call) :
  fn w = (Ok a, q) -> keepTrying retries fn w = (Ok a, q).
Proof.
  intro H. destruct retries; simpl; now rewrite H.
Qed.

(** The last error is rethrown when every attempt fails. *)
Lemma keepTrying_throw {A} (retries : nat) (fn : M A) (w : Web3) (e : Error) (q : list Call) :
  fn w = (Throw e, q) -> fst (keepTrying retries fn w) = Throw e.
Proof.
  intro H. induction retries as [|retries IH]; simpl; rewrite H; [reflexivity|].
  destruct (keepTrying retries fn w). exact IH.
Qed.

Lemma estimateGasPrice_run (w : Web3) (retries : nat) (percentiles : list Z) (length : Z)
      (pendingBlock : BlockInfo) (latestBlockNumber : Z) :
  eth_getBlock w Pending = Some pendingBlock ->
  eth_getBlockNumber w = Some latestBlockNumber ->
  let history := historyOrEmpty w length percentiles in
  let base := bn (or_default (Rpc.baseFeePerGas pendingBlock) (10 ^ 8)) in
  let tier := fun i =>
    {| max := integerValue (plus (times base (5 # 4)) (median (rewardsAt i history)));
       tip := integerValue (median (rewardsAt i history)) |} in
  estimateGasPrice retries percentiles length w =
  (Ok {| slow := tier 0%nat; med := tier 1%nat; fast := tier 2%nat;
         baseFeePerGas := base;
         pendingBlockNumber := latestBlockNumber + 1;
         pendingBlockTimestamp := timestamp pendingBlock |},
   [GetBlock Pending; GetBlockNumber; GetFeeHistory length Pending percentiles]).
Proof.
  intros Hpending Hnumber history base tier.
  unfold estimateGasPrice. apply keepTrying_ok.
  unfold estimateGasPrice_attempt, bind, Promise_all3, catch,
    getBlock, getBlockNumber, getFeeHistory, request.
  rewrite Hpending, Hnumber.
  subst tier base history. unfold historyOrEmpty.
  destruct (eth_getFeeHistory w length Pending percentiles); reflexivity.
Qed.

(** Without the pending block or the latest block number the call fails. *)
Lemma estimateGasPrice_needs_pending (w : Web3) retries percentiles length :
  eth_getBlock w Pending = None ->
  fst (estimateGasPrice retries percentiles length w) = Throw (RpcError (GetBlock Pending)).
Proof.
  intro H. unfold estimateGasPrice.
  apply keepTrying_throw
    with (q := [GetBlock Pending; GetBlockNumber; GetFeeHistory length Pending percentiles]).
  unfold estimateGasPrice_attempt, bind, Promise_all3, catch,
    getBlock, getBlockNumber, getFeeHistory, request.
  rewrite H.
  destruct (eth_getBlockNumber w), (eth_getFeeHistory w length Pending percentiles);
    reflexivity.
Qed.

Lemma round_half_up_comp (x y : Q) : (x == y)%Q -> round_half_up x = round_half_up y.
Proof.
  intro E. unfold round_half_up.
  assert (Hb : Qle_bool 0 x = Qle_bool 0 y).
  { destruct (Qle_bool 0 x) eqn:Hx, (Qle_bool 0 y) eqn:Hy; try reflexivity.
    - apply Qle_bool_iff in Hx. rewrite E in Hx. apply Qle_bool_iff in Hx. congruence.
    - apply Qle_bool_iff in Hy. rewrite <- E in Hy. apply Qle_bool_iff in Hy. congruence. }
  rewrite Hb. destruct (Qle_bool 0 y).
  - apply Qfloor_comp. now rewrite E.
  - apply Qceiling_comp. now rewrite E.
Qed.

Lemma round_half_up_Z (z : Z) : round_half_up (inject_Z z) = z.
Proof.
  unfold round_half_up.
  destruct (Qle_bool 0 (inject_Z z)) eqn:Hs.
  - pose proof (Qfloor_le (inject_Z z + (1 # 2))) as Hlo.
    pose proof (Qlt_floor (inject_Z z + (1 # 2))) as Hhi.
    set (f := Qfloor (inject_Z z + (1 # 2))) in *.
    unfold Qle, Qlt in *. simpl in *. lia.
  - pose proof (Qle_ceiling (inject_Z z - (1 # 2))) as Hhi.
    pose proof (Qceiling_lt (inject_Z z - (1 # 2))) as Hlo.
    set (f := Qceiling (inject_Z z - (1 # 2))) in *.
    unfold Qle, Qlt in *. simpl in *. lia.
Qed.

Lemma integerValue_bn (z : Z) : integerValue (bn z) = bn z.
Proof.
  unfold integerValue, bn, bn_of_Z. simpl. now rewrite round_half_up_Z.
Qed.

(** C7. The [pendingBlockNumber] of the estimate is the latest block number
    reported by the client plus one. *)
Theorem estimateGasPrice_pendingBlockNumber
        (w : Web3) (retries : nat) (percentiles : list Z) (length : Z)
        (pendingBlock : BlockInfo) (latestBlockNumber : Z) :
  eth_getBlock w Pending = Some pendingBlock ->
  eth_getBlockNumber w = Some latestBlockNumber ->
  exists r,
    fst (estimateGasPrice retries percentiles length w) = Ok r /\
    pendingBlockNumber r = latestBlockNumber + 1.
Proof.
  intros Hpending Hnumber.
  rewrite (estimateGasPrice_run w retries percentiles length _ _ Hpending Hnumber).
  eexists. split; reflexivity.
Qed.

Lemma estimateGasPrice_pendingBlockNumber_witness :
  exists r,
    fst (estimateGasPrice 2 default_percentiles default_length
                          (web3_of_chain (twelve_seconds 20000))) = Ok r /\
    pendingBlockNumber r = 20000 + 1.
Proof.
  apply (estimateGasPrice_pendingBlockNumber
           (web3_of_chain (twelve_seconds 20000)) 2 default_percentiles default_length
           (mkBlock 20001 1240000 None) 20000); reflexivity.
Defined.

End EstimateGasPrice.

(** ** Rewards are read in base 16 *)

Section Base16.

Lemma digit_cases (d : Z) :
  0 <= d < 16 ->
  d = 0 \/ d = 1 \/ d = 2 \/ d = 3 \/ d = 4 \/ d = 5 \/ d = 6 \/ d = 7 \/
  d = 8 \/ d = 9 \/ d = 10 \/ d = 11 \/ d = 12 \/ d = 13 \/ d = 14 \/ d = 15.
Proof. lia. Qed.

Ltac each_digit H :=
  apply digit_cases in H;
  repeat (destruct H as [H|H]; [subst|]); subst.

Lemma digitValue_hexChar (d : Z) : 0 <= d < 16 -> digitValue (hexChar d) = Some d.
Proof.
  intro H. each_digit H; reflexivity.
Qed.

Lemma digitsValue_hexString (ds : list Z) : forall acc,
  Forall (fun d => 0 <= d < 16) ds ->
  digitsValue 16 (hexString ds) acc
  = Some (acc * 16 ^ Z.of_nat (List.length ds) + base16 ds).
Proof.
  induction ds as [|d ds IH]; intros acc Hds.
  - simpl. f_equal. lia.
  - inversion Hds as [|? ? Hd Hrest]; subst.
    cbn [hexString digitsValue]. rewrite (digitValue_hexChar d Hd).
    replace (d <? 16) with true by (symmetry; apply Z.ltb_lt; lia).
    rewrite (IH _ Hrest). f_equal.
    cbn [base16 List.length]. rewrite Nat2Z.inj_succ, Z.pow_succ_r by lia. ring.
Qed.

Lemma lowerString_hexStringUpper (ds : list Z) :
  Forall (fun d => 0 <= d < 16) ds ->
  lowerString (hexStringUpper ds) = hexString ds.
Proof.
  induction 1 as [|d ds Hd _ IH]; [reflexivity|].
  cbn [hexStringUpper lowerString hexString]. rewrite IH. f_equal.
  each_digit Hd; reflexivity.
Qed.

Lemma hasLowerLetter_hexStringUpper (ds : list Z) :
  Forall (fun d => 0 <= d < 16) ds ->
  hasLowerLetter (hexStringUpper ds) = false.
Proof.
  induction 1 as [|d ds Hd _ IH]; [reflexivity|].
  cbn [hexStringUpper hasLowerLetter]. rewrite IH.
  each_digit Hd; reflexivity.
Qed.

Lemma digitValue_lowerAscii (c : ascii) (d : Z) :
  digitValue c = Some d -> lowerAscii c = c.
Proof.
  unfold digitValue, lowerAscii.
  destruct ((48 <=? Z.of_nat (nat_of_ascii c)) && (Z.of_nat (nat_of_ascii c) <=? 57)) eqn:E1.
  - intros _. apply andb_true_iff in E1. destruct E1 as [_ E1]. apply Z.leb_le in E1.
    replace ((65 <=? nat_of_ascii c)%nat && (nat_of_ascii c <=? 90)%nat)%bool with false;
      [reflexivity|].
    symmetry. apply andb_false_iff. left. apply Nat.leb_gt. lia.
  - destruct ((97 <=? Z.of_nat (nat_of_ascii c)) && (Z.of_nat (nat_of_ascii c) <=? 122)) eqn:E2;
      [|discriminate].
    intros _. apply andb_true_iff in E2. destruct E2 as [E2 _]. apply Z.leb_le in E2.
    replace ((65 <=? nat_of_ascii c)%nat && (nat_of_ascii c <=? 90)%nat)%bool with false;
      [reflexivity|].
    symmetry. apply andb_false_iff. right. apply Nat.leb_gt. lia.
Qed.

Lemma digitsValue_lowerString (base : Z) (s : string) : forall acc v,
  digitsValue base s acc = Some v -> digitsValue base (lowerString s) acc = Some v.
Proof.
  induction s as [|c s IH]; intros acc v H; [exact H|].
  cbn [digitsValue lowerString] in *.
  destruct (digitValue c) as [d|] eqn:Hc; [|discriminate H].
  rewrite (digitValue_lowerAscii c d Hc), Hc.
  destruct (d <? base); [|discriminate H]. now apply IH.
Qed.

Lemma readDigits_spelled (ds : list Z) (upper : bool) :
  numeral ds ->
  readDigits 16 (if upper then hexStringUpper ds else hexString ds) = Some (base16 ds).
Proof.
  intros [Hne Hds].
  pose proof (digitsValue_hexString ds 0 Hds) as Hlow. rewrite Z.mul_0_l, Z.add_0_l in Hlow.
  destruct upper.
  - assert (Hread : forall s, s = hexStringUpper ds -> readDigits 16 s = Some (base16 ds)).
    { intros s Hs. unfold readDigits.
      destruct s as [|c s']; [destruct ds; [congruence | discriminate Hs]|].
      rewrite Hs.
      destruct (digitsValue 16 (hexStringUpper ds) 0) as [v|] eqn:Hv.
      - apply digitsValue_lowerString in Hv.
        rewrite (lowerString_hexStringUpper ds Hds) in Hv. congruence.
      - rewrite (hasLowerLetter_hexStringUpper ds Hds),
          (lowerString_hexStringUpper ds Hds). exact Hlow. }
    now apply Hread.
  - assert (Hread : forall s, s = hexString ds -> readDigits 16 s = Some (base16 ds)).
    { intros s Hs. unfold readDigits.
      destruct s as [|c s']; [destruct ds; [congruence | discriminate Hs]|].
      rewrite Hs, Hlow. reflexivity. }
    now apply Hread.
Qed.

Lemma readBody_digits (base : Z) (s : string) (v : Z) :
  readDigits base s = Some v -> readBody base s = Some v.
Proof.
  intro H. destruct s; cbn [readBody]; now rewrite H.
Qed.

Lemma readBody_prefixed (body : string) :
  readBody 16 (String "0" (String "x" body)) = readBody 16 body.
Proof.
  change (readBody 16 (String "0" (String "x" body)))
    with (match readDigits 16 (String "0" (String "x" body)) with
          | Some v => Some v
          | None => readBody 16 body
          end).
  assert (H : readDigits 16 (String "0" (String "x" body)) = None) by reflexivity.
  now rewrite H.
Qed.

(** [bn(s, 16)] of a hexadecimal literal is the integer it denotes. *)
Lemma bn_base_render (l : Literal) :
  well_formed l -> bn_base (Some (render l)) 16 = bn (value l).
Proof.
  intro Hl. pose proof Hl as [Hne Hds].
  pose proof (readBody_digits 16 _ _ (readDigits_spelled (digits l) (upperCase l) Hl)) as Hbody.
  unfold render, value. destruct (prefixed l).
  - change ("0x" ++ ?s)%string with (String "0" (String "x" s)).
    cbn [bn_base]. cbv iota.
    rewrite readBody_prefixed, Hbody. reflexivity.
  - change (("" ++ ?s)%string) with s.
    set (s := if upperCase l then hexStringUpper (digits l) else hexString (digits l)) in *.
    assert (Hplain : bn_base (Some s) 16 = option_map inject_Z (readBody 16 s)).
    { subst s. destruct (digits l) as [|d ds]; [congruence|].
      inversion Hds as [|? ? Hd _]; subst.
      destruct (upperCase l); cbn [hexString hexStringUpper];
        each_digit Hd; reflexivity. }
    rewrite Hplain, Hbody. reflexivity.
Qed.

Lemma rewardsAt_render (i : nat) (rows : list (list Literal)) :
  (i < 3)%nat ->
  Forall (fun row => List.length row = 3%nat /\ Forall well_formed row) rows ->
  rewardsAt i (mkFeeHistory (map (map render) rows)) = map bn (column i rows).
Proof.
  intros Hi Hrows. unfold rewardsAt, column. cbn [reward].
  rewrite !map_map. apply map_ext_in. intros row Hrow.
  rewrite Forall_forall in Hrows. destruct (Hrows row Hrow) as [Hlen Hwf].
  rewrite nth_error_map.
  destruct (nth_error row i) as [l|] eqn:Hnth.
  - cbn [option_map]. apply bn_base_render.
    rewrite Forall_forall in Hwf. apply Hwf. eapply nth_error_In. exact Hnth.
  - apply nth_error_None in Hnth. lia.
Qed.

End Base16.

(** ** The median of the samples *)

Section MedianByCounting.

Lemma Qle_bool_inject_Z (x y : Z) : Qle_bool (inject_Z x) (inject_Z y) = (x <=? y).
Proof.
  unfold Qle_bool. simpl. now rewrite !Z.mul_1_r.
Qed.

Lemma insert_inject_Z (x : Z) (s : list Z) :
  StronglySorted Z.le s ->
  exists s', insert (inject_Z x) (map inject_Z s) = map inject_Z s' /\
             StronglySorted Z.le s' /\ Permutation (x :: s) s'.
Proof.
  induction 1 as [|y s Hs IH Hy].
  - exists [x]. repeat split; [repeat constructor | apply Permutation_refl].
  - cbn [map insert]. rewrite Qle_bool_inject_Z.
    destruct (x <=? y) eqn:Hxy.
    + apply Z.leb_le in Hxy. exists (x :: y :: s). split; [reflexivity|].
      split; [|apply Permutation_refl].
      constructor; [now constructor|].
      constructor; [exact Hxy|].
      rewrite Forall_forall in *. intros z Hz. specialize (Hy z Hz). lia.
    + apply Z.leb_gt in Hxy. destruct IH as [s' [Hins [Hsorted Hperm]]].
      exists (y :: s'). split; [cbn [map]; now rewrite Hins|]. split.
      * constructor; [exact Hsorted|].
        rewrite Forall_forall in *. intros z Hz.
        apply (Permutation_in _ (Permutation_sym Hperm)) in Hz.
        destruct Hz as [Hz|Hz]; [subst z; lia | now apply Hy].
      * apply perm_trans with (y :: x :: s); [apply perm_swap | now apply perm_skip].
Qed.

Lemma sort_inject_Z (samples : list Z) :
  exists s, sort (map inject_Z samples) = map inject_Z s /\
            StronglySorted Z.le s /\ Permutation samples s.
Proof.
  induction samples as [|x samples [s [Hsort [Hsorted Hperm]]]].
  - exists []. repeat split; constructor.
  - destruct (insert_inject_Z x s Hsorted) as [s' [Hins [Hsorted' Hperm']]].
    exists s'. split; [|split; [exact Hsorted'|]].
    + unfold sort in *. cbn [map fold_right]. now rewrite Hsort.
    + apply perm_trans with (x :: s); [now apply perm_skip | exact Hperm'].
Qed.

Lemma filter_length_Permutation (f : Z -> bool) (l l' : list Z) :
  Permutation l l' -> List.length (filter f l) = List.length (filter f l').
Proof.
  induction 1 as [|x l l' _ IH|x y l|l l' l'' _ IH1 _ IH2]; cbn [filter].
  - reflexivity.
  - destruct (f x); cbn [List.length]; now rewrite IH.
  - destruct (f x), (f y); reflexivity.
  - now rewrite IH1.
Qed.

Lemma ranked_Permutation (l s : list Z) (j : nat) (x : Z) :
  Permutation l s -> ranked s j x -> ranked l j x.
Proof.
  intros Hperm [Hin [Hlo Hhi]]. unfold ranked, count_below, count_upto in *.
  rewrite (filter_length_Permutation _ l s Hperm), (filter_length_Permutation _ l s Hperm).
  repeat split; try assumption.
  now apply (Permutation_in _ (Permutation_sym Hperm)).
Qed.

Lemma ranked_sorted (s : list Z) : forall j,
  StronglySorted Z.le s -> (j < List.length s)%nat -> ranked s j (nth j s 0).
Proof.
  induction s as [|a s IH]; intros j Hsorted Hj; [simpl in Hj; lia|].
  inversion Hsorted as [|? ? Hs Ha]; subst.
  unfold ranked, count_below, count_upto in *.
  destruct j as [|j]; cbn [nth filter].
  - rewrite Z.ltb_irrefl, Z.leb_refl. cbn [List.length].
    split; [now left|]. split; [|lia].
    assert (Hnone : filter (fun y => y <? a) s = []).
    { clear IH Hsorted Hs Hj. induction Ha as [|y s Hy _ IHs]; [reflexivity|].
      cbn [filter]. replace (y <? a) with false by (symmetry; apply Z.ltb_ge; lia).
      exact IHs. }
    rewrite Hnone. simpl. lia.
  - cbn [List.length] in Hj.
    destruct (IH j Hs) as [Hin [Hlo Hhi]]; [lia|].
    assert (Hle : a <= nth j s 0) by (rewrite Forall_forall in Ha; now apply Ha).
    replace (a <=? nth j s 0) with true by (symmetry; now apply Z.leb_le).
    split; [now right|].
    destruct (a <? nth j s 0); cbn [List.length]; lia.
Qed.

(** Position [j] of the ordered samples holds one value only. *)
Lemma ranked_unique (samples : list Z) (j : nat) (x y : Z) :
  ranked samples j x -> ranked samples j y -> x = y.
Proof.
  assert (H : forall a b, a < b -> (count_upto a samples <= count_below b samples)%nat).
  { intros a b Hab. unfold count_upto, count_below.
    induction samples as [|z l IH]; [reflexivity|].
    cbn [filter]. destruct (z <=? a) eqn:E1, (z <? b) eqn:E2; cbn [List.length]; lia. }
  intros [_ [Hxlo Hxhi]] [_ [Hylo Hyhi]].
  destruct (Z.lt_trichotomy x y) as [Hlt|[Heq|Hgt]]; [|exact Heq|].
  - specialize (H x y Hlt). lia.
  - specialize (H y x Hgt). lia.
Qed.

Lemma allFinite_bn (samples : list Z) :
  allFinite (map bn samples) = Some (map inject_Z samples).
Proof.
  induction samples as [|x samples IH]; [reflexivity|].
  cbn [map allFinite bn bn_of_Z]. cbn [map] in IH. now rewrite IH.
Qed.

(** The median computed on sorted samples is the median defined by
    counting. *)
Lemma median_is_median (samples : list Z) :
  exists m, median (map bn samples) = Some m /\ is_median samples m.
Proof.
  unfold median. rewrite allFinite_bn. cbn [option_map].
  destruct (sort_inject_Z samples) as [s [Hsort [Hsorted Hperm]]].
  rewrite Hsort. eexists. split; [reflexivity|].
  unfold is_median, middle. rewrite length_map.
  rewrite <- (Permutation_length Hperm).
  destruct (List.length samples) as [|n] eqn:Hlen; [reflexivity|].
  assert (Hs : List.length s = S n) by (now rewrite <- (Permutation_length Hperm)).
  assert (Hmid : (S n / 2 < List.length s)%nat).
  { rewrite Hs. apply Nat.div_lt; lia. }
  unfold Nat.odd. destruct (Nat.even (S n)); cbn [negb].
  - exists (nth (S n / 2 - 1) s 0), (nth (S n / 2) s 0).
    split; [|split].
    + apply (ranked_Permutation _ s _ _ Hperm). apply ranked_sorted; [exact Hsorted | lia].
    + apply (ranked_Permutation _ s _ _ Hperm). now apply ranked_sorted.
    + change 0%Q with (inject_Z 0). now rewrite !map_nth.
  - exists (nth (S n / 2) s 0). split.
    + apply (ranked_Permutation _ s _ _ Hperm). now apply ranked_sorted.
    + change 0%Q with (inject_Z 0). now rewrite map_nth.
Qed.

End MedianByCounting.

(** ** The tiers of the estimate *)

Section Tiers.

Lemma median_empty : median [] = zero.
Proof. reflexivity. Qed.

Lemma median_single (x : BN) : median [x] = x.
Proof. destruct x; reflexivity. Qed.

Lemma integerValue_plus_zero (a : BN) :
  integerValue (plus a zero) = integerValue a.
Proof.
  destruct a as [x|]; [|reflexivity].
  unfold integerValue, plus, zero, option_map. f_equal. f_equal.
  apply round_half_up_comp. ring.
Qed.

Lemma is_median_unique (samples : list Z) (m m' : Q) :
  is_median samples m -> is_median samples m' -> (m == m')%Q.
Proof.
  unfold is_median. destruct (List.length samples) as [|n].
  - intros H H'. now rewrite H, H'.
  - destruct (Nat.odd (S n)).
    + intros [x [Hx Hm]] [x' [Hx' Hm']].
      rewrite Hm, Hm', (ranked_unique _ _ _ _ Hx Hx'). reflexivity.
    + intros [x [y [Hx [Hy Hm]]]] [x' [y' [Hx' [Hy' Hm']]]].
      rewrite Hm, Hm', (ranked_unique _ _ _ _ Hx Hx'), (ranked_unique _ _ _ _ Hy Hy').
      reflexivity.
Qed.

Lemma round_five_quarters (base : Z) :
  0 <= base -> round_half_up (inject_Z base * (5 # 4)) = (5 * base + 2) / 4.
Proof.
  intro Hbase. unfold round_half_up.
  assert (Hpos : Qle_bool 0 (inject_Z base * (5 # 4)) = true).
  { apply Qle_bool_iff. unfold Qle. simpl. lia. }
  rewrite Hpos. unfold Qfloor, Qplus, Qmult, inject_Z. cbn [Qnum Qden].
  change (Z.pos (1 * 4 * 2)) with (4 * 2).
  replace (base * 5 * 2 + 1 * Z.pos (1 * 4)) with ((5 * base + 2) * 2) by lia.
  apply Z.div_mul_cancel_r; lia.
Qed.

(** C6. When the fee-history request fails while the pending block and
    the latest block number are served, [estimateGasPrice] returns an
    estimate after its three requests.  Its base fee is the one of the
    pending block (1e8 when that is absent or 0); in each of the three
    tiers the tip is 0 and the max is the base fee times 1.25 rounded to an
    integer, which for a base fee that is not negative is the integer
    quotient of [5 * base + 2] by 4. *)
Theorem estimateGasPrice_without_fee_history
        (w : Web3) (retries : nat) (percentiles : list Z) (length : Z)
        (pendingBlock : BlockInfo) (latestBlockNumber : Z) (base : Z) :
  eth_getBlock w Pending = Some pendingBlock ->
  eth_getBlockNumber w = Some latestBlockNumber ->
  eth_getFeeHistory w length Pending percentiles = None ->
  (Rpc.baseFeePerGas pendingBlock = Some base /\ base <> 0) \/
  (base = 100000000 /\
   (Rpc.baseFeePerGas pendingBlock = None \/ Rpc.baseFeePerGas pendingBlock = Some 0)) ->
  exists r,
    estimateGasPrice retries percentiles length w =
    (Ok r, [GetBlock Pending; GetBlockNumber; GetFeeHistory length Pending percentiles]) /\
    baseFeePerGas r = bn base /\
    (forall tier, In tier [slow r; med r; fast r] ->
                  tip tier = bn 0 /\
                  max tier = integerValue (times (bn base) (5 # 4)) /\
                  (0 <= base -> max tier = bn ((5 * base + 2) / 4))).
Proof.
  intros Hpending Hnumber Hfee Hbase.
  rewrite (estimateGasPrice_run w retries percentiles length _ _ Hpending Hnumber).
  unfold historyOrEmpty. rewrite Hfee.
  assert (Hdefault : or_default (Rpc.baseFeePerGas pendingBlock) (10 ^ 8) = base).
  { destruct Hbase as [[Hsome Hnz]|[Hb [Hnone|Hzero]]].
    - rewrite Hsome. cbn [or_default]. apply Z.eqb_neq in Hnz. now rewrite Hnz.
    - rewrite Hnone. now subst base.
    - rewrite Hzero. now subst base. }
  rewrite Hdefault.
  eexists. split; [reflexivity|]. split; [reflexivity|].
  cbn [slow med fast rewardsAt reward map].
  rewrite median_empty.
  intros tier [Ht|[Ht|[Ht|[]]]]; subst tier; cbn [tip max];
    (split; [reflexivity|]; split; [apply integerValue_plus_zero|]);
    intro Hpos; rewrite integerValue_plus_zero;
    cbn [integerValue times bn bn_of_Z option_map];
    now rewrite (round_five_quarters base Hpos).
Qed.

Lemma estimateGasPrice_without_fee_history_witness :
  exists r,
    estimateGasPrice 2 default_percentiles default_length
                     (gas_client (mkBlock 20001 1240012 (Some 1002)) 20000 None)
    = (Ok r, [GetBlock Pending; GetBlockNumber;
              GetFeeHistory default_length Pending default_percentiles]) /\
    baseFeePerGas r = bn 1002 /\
    (forall tier, In tier [slow r; med r; fast r] ->
                  tip tier = bn 0 /\ max tier = bn 1253).
Proof.
  assert (Hfee : (Rpc.baseFeePerGas (mkBlock 20001 1240012 (Some 1002)) = Some 1002
                  /\ 1002 <> 0) \/
                 (1002 = 100000000 /\
                  (Rpc.baseFeePerGas (mkBlock 20001 1240012 (Some 1002)) = None \/
                   Rpc.baseFeePerGas (mkBlock 20001 1240012 (Some 1002)) = Some 0))).
  { left. split; [reflexivity | discriminate]. }
  destruct (estimateGasPrice_without_fee_history
              (gas_client (mkBlock 20001 1240012 (Some 1002)) 20000 None)
              2 default_percentiles default_length
              (mkBlock 20001 1240012 (Some 1002)) 20000 1002
              eq_refl eq_refl eq_refl Hfee)
    as [r [Hr [Hbase Htiers]]].
  exists r. split; [exact Hr|]. split; [exact Hbase|].
  intros tier Hin. destruct (Htiers tier Hin) as [Htip [_ Hmax]].
  split; [exact Htip|]. apply Hmax. discriminate.
Defined.

(** C8. Each tier's tip is the median, over the sampled blocks, of the
    reward at the tier's position (0 slow, 1 med, 2 fast), rounded to an
    integer: the middle one of the rewards in ascending order, or the mean
    of the two central ones, in whatever order the blocks come.  The rows
    [1,2,3], [3,4,5], [5,6,7] give the tips 3, 4, 5, also when the blocks
    are listed in another order; two central values are averaged and the
    half is rounded up. *)
Theorem estimateGasPrice_tips_are_medians :
  (forall (w : Web3) (retries : nat) (percentiles : list Z) (length : Z)
          (pendingBlock : BlockInfo) (latestBlockNumber : Z) (rows : list (list Literal)),
      eth_getBlock w Pending = Some pendingBlock ->
      eth_getBlockNumber w = Some latestBlockNumber ->
      eth_getFeeHistory w length Pending percentiles
        = Some (mkFeeHistory (map (map render) rows)) ->
      Forall (fun row => List.length row = 3%nat /\ Forall well_formed row) rows ->
      exists r m_slow m_med m_fast,
        fst (estimateGasPrice retries percentiles length w) = Ok r /\
        is_median (column 0 rows) m_slow /\ tip (slow r) = bn (round_half_up m_slow) /\
        is_median (column 1 rows) m_med /\ tip (med r) = bn (round_half_up m_med) /\
        is_median (column 2 rows) m_fast /\ tip (fast r) = bn (round_half_up m_fast))
  /\
  (forall (retries : nat) (pendingBlock : BlockInfo) (latestBlockNumber : Z)
          (rewards : list (list string)),
      In rewards [ [["1"; "2"; "3"]; ["3"; "4"; "5"]; ["5"; "6"; "7"]];
                   [["5"; "6"; "7"]; ["1"; "2"; "3"]; ["3"; "4"; "5"]];
                   [["3"; "4"; "5"]; ["5"; "6"; "7"]; ["1"; "2"; "3"]] ]%string ->
      exists r,
        fst (estimateGasPrice retries [10; 50; 90] default_length
               (gas_client pendingBlock latestBlockNumber (Some rewards))) = Ok r /\
        tip (slow r) = bn 3 /\ tip (med r) = bn 4 /\ tip (fast r) = bn 5)
  /\
  (forall (retries : nat) (pendingBlock : BlockInfo) (latestBlockNumber : Z),
      exists r,
        fst (estimateGasPrice retries [10; 50; 90] default_length
               (gas_client pendingBlock latestBlockNumber
                  (Some [["9"; "8"; "9"]; ["2"; "2"; "7"]; ["6"; "6"; "8"]; ["3"; "4"; "8"]]%string)))
        = Ok r /\
        tip (slow r) = bn 5 /\ tip (med r) = bn 5 /\ tip (fast r) = bn 8).
Proof.
  split; [|split].
  - intros w retries percentiles length pendingBlock latestBlockNumber rows
           Hpending Hnumber Hfee Hrows.
    rewrite (estimateGasPrice_run w retries percentiles length _ _ Hpending Hnumber).
    unfold historyOrEmpty. rewrite Hfee. cbn [fst slow med fast tip].
    rewrite !rewardsAt_render by (assumption || lia).
    destruct (median_is_median (column 0 rows)) as [m0 [H0 M0]].
    destruct (median_is_median (column 1 rows)) as [m1 [H1 M1]].
    destruct (median_is_median (column 2 rows)) as [m2 [H2 M2]].
    rewrite H0, H1, H2.
    eexists. exists m0, m1, m2. split; [reflexivity|].
    repeat split; assumption.
  - intros retries pendingBlock latestBlockNumber rewards Hin.
    rewrite (estimateGasPrice_run
               (gas_client pendingBlock latestBlockNumber (Some rewards))
               retries [10; 50; 90] default_length
               pendingBlock latestBlockNumber eq_refl eq_refl).
    destruct Hin as [H|[H|[H|[]]]]; subst rewards;
      (eexists; split; [reflexivity|]; repeat split).
  - intros retries pendingBlock latestBlockNumber.
    rewrite (estimateGasPrice_run
               (gas_client pendingBlock latestBlockNumber
                  (Some [["9"; "8"; "9"]; ["2"; "2"; "7"]; ["6"; "6"; "8"]; ["3"; "4"; "8"]]%string))
               retries [10; 50; 90] default_length
               pendingBlock latestBlockNumber eq_refl eq_refl).
    eexists. split; [reflexivity|]. repeat split.
Qed.

Lemma estimateGasPrice_tips_are_medians_witness :
  let rows := [ [mkLiteral true false [5]; mkLiteral true false [6]; mkLiteral true false [7]];
                [mkLiteral true false [1]; mkLiteral true false [2]; mkLiteral true false [3]];
                [mkLiteral true false [3]; mkLiteral true false [4]; mkLiteral true false [5]] ] in
  exists r m_slow m_med m_fast,
    fst (estimateGasPrice 2 [10; 50; 90] 5
           (gas_client (mkBlock 20001 1240012 (Some 1001)) 20000
              (Some [["0x5"; "0x6"; "0x7"]; ["0x1"; "0x2"; "0x3"]; ["0x3"; "0x4"; "0x5"]]%string)))
    = Ok r /\
    is_median (column 0 rows) m_slow /\ tip (slow r) = bn (round_half_up m_slow) /\
    is_median (column 1 rows) m_med /\ tip (med r) = bn (round_half_up m_med) /\
    is_median (column 2 rows) m_fast /\ tip (fast r) = bn (round_half_up m_fast).
Proof.
  intro rows.
  apply (proj1 estimateGasPrice_tips_are_medians
               (gas_client (mkBlock 20001 1240012 (Some 1001)) 20000
                  (Some [["0x5"; "0x6"; "0x7"]; ["0x1"; "0x2"; "0x3"]; ["0x3"; "0x4"; "0x5"]]%string))
               2%nat [10; 50; 90] 5 (mkBlock 20001 1240012 (Some 1001)) 20000 rows);
    try reflexivity.
  repeat (constructor; [split; [reflexivity|];
                        repeat (constructor; [split; [discriminate | repeat constructor; lia]|]);
                        constructor|]).
  constructor.
Defined.

(** C9. A pending block without [baseFeePerGas] does not make the call
    fail: 1e8 takes its place, in the [max] of each tier and in the
    [baseFeePerGas] of the estimate. *)
Theorem estimateGasPrice_default_baseFee
        (w : Web3) (retries : nat) (percentiles : list Z) (length : Z)
        (pendingBlock : BlockInfo) (latestBlockNumber : Z) :
  eth_getBlock w Pending = Some pendingBlock ->
  eth_getBlockNumber w = Some latestBlockNumber ->
  Rpc.baseFeePerGas pendingBlock = None ->
  let history := historyOrEmpty w length percentiles in
  exists r,
    fst (estimateGasPrice retries percentiles length w) = Ok r /\
    baseFeePerGas r = bn 100000000 /\
    max (slow r) =
      integerValue (plus (times (bn 100000000) (5 # 4)) (median (rewardsAt 0 history))) /\
    max (med r) =
      integerValue (plus (times (bn 100000000) (5 # 4)) (median (rewardsAt 1 history))) /\
    max (fast r) =
      integerValue (plus (times (bn 100000000) (5 # 4)) (median (rewardsAt 2 history))).
Proof.
  intros Hpending Hnumber Hbase history.
  rewrite (estimateGasPrice_run w retries percentiles length _ _ Hpending Hnumber).
  rewrite Hbase.
  eexists. split; [reflexivity|]. repeat split.
Qed.

Lemma estimateGasPrice_default_baseFee_witness :
  exists r,
    fst (estimateGasPrice 2 default_percentiles default_length
           (gas_client (mkBlock 20001 1240012 None) 20000
              (Some [["1"; "2"; "3"]; ["3"; "4"; "5"]; ["5"; "6"; "7"]]%string)))
    = Ok r /\
    baseFeePerGas r = bn 100000000 /\
    max (slow r) = bn 125000003 /\
    max (med r) = bn 125000004 /\
    max (fast r) = bn 125000005.
Proof.
  destruct (estimateGasPrice_default_baseFee
              (gas_client (mkBlock 20001 1240012 None) 20000
                 (Some [["1"; "2"; "3"]; ["3"; "4"; "5"]; ["5"; "6"; "7"]]%string))
              2 default_percentiles default_length
              (mkBlock 20001 1240012 None) 20000 eq_refl eq_refl eq_refl)
    as [r [Hr [Hbase [Hslow [Hmed Hfast]]]]].
  exists r. split; [exact Hr|]. split; [exact Hbase|].
  rewrite Hslow, Hmed, Hfast. repeat split.
Defined.

(** C10. Every reward string is read in base 16.  Whatever the number of
    sampled blocks, when the rewards are hexadecimal literals (digits in
    lower or in upper case, with the prefix [0x] or without it), the values
    whose median gives a tier's tip are the integers that the strings at
    the tier's position denote in base 16.  The string ["10"] contributes
    16, as does ["0x10"]; read in base 10 it would contribute 10. *)
Theorem estimateGasPrice_rewards_base16 :
  (forall (w : Web3) (retries : nat) (percentiles : list Z) (length : Z)
          (pendingBlock : BlockInfo) (latestBlockNumber : Z) (rows : list (list Literal)),
      eth_getBlock w Pending = Some pendingBlock ->
      eth_getBlockNumber w = Some latestBlockNumber ->
      eth_getFeeHistory w length Pending percentiles
        = Some (mkFeeHistory (map (map render) rows)) ->
      Forall (fun row => List.length row = 3%nat /\ Forall well_formed row) rows ->
      exists r,
        fst (estimateGasPrice retries percentiles length w) = Ok r /\
        tip (slow r) = integerValue (median (map bn (column 0 rows))) /\
        tip (med r) = integerValue (median (map bn (column 1 rows))) /\
        tip (fast r) = integerValue (median (map bn (column 2 rows))))
  /\
  (forall l : Literal, well_formed l ->
                       bn_base (Some (render l)) 16 = bn (base16 (digits l)))
  /\
  (forall (retries : nat) (pendingBlock : BlockInfo) (latestBlockNumber : Z),
      exists r,
        fst (estimateGasPrice retries default_percentiles default_length
               (gas_client pendingBlock latestBlockNumber
                  (Some [["10"; "0x10"; "FF"]]%string))) = Ok r /\
        tip (slow r) = bn 16 /\ tip (med r) = bn 16 /\ tip (fast r) = bn 255)
  /\ bn_base (Some "10"%string) 16 = bn 16
  /\ bn_base (Some "10"%string) 10 = bn 10.
Proof.
  split; [|split; [|split; [|split]]].
  - intros w retries percentiles length pendingBlock latestBlockNumber rows
           Hpending Hnumber Hfee Hrows.
    rewrite (estimateGasPrice_run w retries percentiles length _ _ Hpending Hnumber).
    unfold historyOrEmpty. rewrite Hfee. cbn [fst slow med fast tip].
    rewrite !rewardsAt_render by (assumption || lia).
    eexists. split; [reflexivity|]. repeat split.
  - exact bn_base_render.
  - intros retries pendingBlock latestBlockNumber.
    rewrite (estimateGasPrice_run
               (gas_client pendingBlock latestBlockNumber (Some [["10"; "0x10"; "FF"]]%string))
               retries default_percentiles default_length
               pendingBlock latestBlockNumber eq_refl eq_refl).
    eexists. split; [reflexivity|]. repeat split.
  - reflexivity.
  - reflexivity.
Qed.

Lemma estimateGasPrice_rewards_base16_witness :
  let rows := [ [mkLiteral true false [3; 11; 9; 10; 12; 10; 0; 0];
                 mkLiteral false true [15; 15]; mkLiteral false false [1; 0]];
                [mkLiteral true true [1; 10]; mkLiteral true false [1; 0];
                 mkLiteral false false [2; 0]] ] in
  exists r,
    fst (estimateGasPrice 2 default_percentiles default_length
           (gas_client (mkBlock 20001 1240012 (Some 1001)) 20000
              (Some [["0x3b9aca00"; "FF"; "10"]; ["0x1A"; "0x10"; "20"]]%string))) = Ok r /\
    tip (slow r) = integerValue (median [bn 1000000000; bn 26]) /\
    tip (med r) = integerValue (median [bn 255; bn 16]) /\
    tip (fast r) = integerValue (median [bn 16; bn 32]).
Proof.
  intro rows.
  apply (proj1 estimateGasPrice_rewards_base16
               (gas_client (mkBlock 20001 1240012 (Some 1001)) 20000
                  (Some [["0x3b9aca00"; "FF"; "10"]; ["0x1A"; "0x10"; "20"]]%string))
               2%nat default_percentiles default_length
               (mkBlock 20001 1240012 (Some 1001)) 20000 rows);
    try reflexivity.
  repeat (constructor; [split; [reflexivity|];
                        repeat (constructor; [split; [discriminate | repeat constructor; lia]|]);
                        constructor|]).
  constructor.
Defined.

End Tiers.

(** * Further properties of findBlock *)

Section FindBlockOutcomes.

Lemma search_not_future fuel : forall target avg c previous w t,
  fst (search fuel target avg c previous w) <> Throw (FutureTimestampError t).
Proof.
  induction fuel as [|fuel IH]; intros target avg c previous w t.
  - discriminate.
  - rewrite search_S.
    destruct (geb _ avg); [|discriminate].
    destruct (exceeds _ previous); [discriminate|].
    destruct (number c - estDistanceInBlocks c target avg <? 0).
    + unfold bind. rewrite block_run.
      destruct (eth_getBlock w (blockId (Some 0))); discriminate.
    + destruct (eth_getBlock w
                  (blockId (Some (number c - estDistanceInBlocks c target avg))))
        as [next|] eqn:Hnext.
      * rewrite (bind_block_ok w _ next) by exact Hnext. apply IH.
      * rewrite bind_block_fail by exact Hnext. discriminate.
Qed.

(** [findBlock] throws [FutureTimestampError] exactly when the client serves
    a latest block whose timestamp is before the target; no later step of
    the function throws that error. *)
Theorem findBlock_future_iff (w : Web3) (fuel : nat) (t : Z) :
  fst (findBlock fuel t w) = Throw (FutureTimestampError t) <->
  exists head,
    eth_getBlock w Latest = Some head /\
    (inject_Z (timestamp head) < inject_Z t / 1000)%Q.
Proof.
  split.
  - intro H.
    destruct (eth_getBlock w Latest) as [head|] eqn:Hhead.
    + exists head. split; [reflexivity|].
      apply Qnot_le_lt. intro Hle.
      rewrite (findBlock_setup w fuel t head Hhead Hle) in H. cbn [fst] in H.
      destruct (eth_getBlock w (blockId (Some (number head - 10000)))) as [ref|] eqn:Href.
      * rewrite (bind_block_ok w _ ref) in H by exact Href. cbn [fst] in H.
        exact (search_not_future _ _ _ _ _ _ _ H).
      * rewrite bind_block_fail in H by exact Href. discriminate H.
    + unfold findBlock in H. rewrite bind_block_fail in H by exact Hhead.
      discriminate H.
  - intros [head [Hhead Hlt]].
    now rewrite (findBlock_future_timestamp w fuel t head Hhead Hlt).
Qed.

(** With at least 10,000 blocks below the head, every request that
    [findBlock] sends is for the latest block or for a positive block
    number. *)
Theorem findBlock_requests_not_negative (w : Web3) (fuel : nat) (t : Z) (head : BlockInfo) :
  eth_getBlock w Latest = Some head ->
  10000 <= number head ->
  Forall loop_request (snd (findBlock fuel t w)).
Proof.
  intros Hhead Hlong.
  destruct (Qlt_le_dec (inject_Z (timestamp head)) (inject_Z t / 1000)) as [Hlt|Hle].
  - rewrite (findBlock_future_timestamp w fuel t head Hhead Hlt).
    constructor; [now left | constructor].
  - rewrite (findBlock_setup w fuel t head Hhead Hle). cbn [snd].
    constructor; [now left|].
    destruct (eth_getBlock w (blockId (Some (number head - 10000)))) as [ref|] eqn:Href.
    + rewrite (bind_block_ok w _ ref) by exact Href. cbn [snd].
      constructor; [apply blockId_loop_request; lia | apply search_requests].
    + rewrite bind_block_fail by exact Href. cbn [snd].
      constructor; [apply blockId_loop_request; lia | constructor].
Qed.

Lemma findBlock_requests_not_negative_witness :
  Forall loop_request
         (snd (findBlock 5 999000000 (web3_of_chain (twelve_seconds 20000)))).
Proof.
  apply (findBlock_requests_not_negative
           (web3_of_chain (twelve_seconds 20000)) 5 999000000
           (headBlock (twelve_seconds 20000))).
  - reflexivity.
  - cbn [headBlock blockAt number twelve_seconds headNumber]. lia.
Defined.

(** On a chain with fewer than 10,000 blocks below the head, served by a
    client that has no block of negative number, [findBlock] fails for every
    target that is not in the future: the request for the reference block is
    rejected. *)
Theorem findBlock_short_chain (c : Chain) (fuel : nat) (t : Z) :
  headNumber c < 10000 ->
  (inject_Z t / 1000 <= inject_Z (timestampOf c (headNumber c)))%Q ->
  findBlock fuel t (web3_of_chain c) =
  (Throw (RpcError (GetBlock (Num (headNumber c - 10000)))),
   [GetBlock Latest; GetBlock (Num (headNumber c - 10000))]).
Proof.
  intros Hshort Hle.
  rewrite (findBlock_setup (web3_of_chain c) fuel t (headBlock c) eq_refl Hle).
  change (number (headBlock c)) with (headNumber c).
  assert (Hid : blockId (Some (headNumber c - 10000)) = Num (headNumber c - 10000)).
  { unfold blockId. destruct (headNumber c - 10000 =? 0) eqn:E; [|reflexivity].
    apply Z.eqb_eq in E. exfalso. lia. }
  assert (Hnone : eth_getBlock (web3_of_chain c) (blockId (Some (headNumber c - 10000))) = None).
  { rewrite Hid. cbn [web3_of_chain eth_getBlock].
    replace (0 <=? headNumber c - 10000) with false; [reflexivity|].
    symmetry. apply Z.leb_gt. lia. }
  rewrite bind_block_fail by exact Hnone. now rewrite Hid.
Qed.

Lemma findBlock_short_chain_witness :
  findBlock 5 1030000000 (web3_of_chain (twelve_seconds 5000)) =
  (Throw (RpcError (GetBlock (Num (5000 - 10000)))),
   [GetBlock Latest; GetBlock (Num (5000 - 10000))]).
Proof.
  apply (findBlock_short_chain (twelve_seconds 5000) 5 1030000000).
  - cbn [twelve_seconds headNumber]. lia.
  - vm_compute. discriminate.
Defined.

Lemma search_result_served fuel : forall target avg c previous w result requests,
  search fuel target avg c previous w = (Ok result, requests) ->
  result = c \/
  exists id, In (GetBlock id) requests /\ eth_getBlock w id = Some result.
Proof.
  intros target avg c previous w result requests H.
  apply search_sound in H.
  induction H as [c previous Hlt | c previous Hge Hgrow
                 | c previous next result requests est Hge Hgrow Hpos Hnext _ IH].
  - now left.
  - now left.
  - right. destruct IH as [IH|[id [Hin Hid]]].
    + subst result. exists (blockId (Some (number c - est))). split; [now left | exact Hnext].
    + exists id. split; [now right | exact Hid].
Qed.

(** A block returned by [findBlock] is the answer of the client to one of
    the requests [findBlock] has sent. *)
Theorem findBlock_result_served (w : Web3) (fuel : nat) (t : Z)
        (result : BlockInfo) (requests : list Call) :
  findBlock fuel t w = (Ok result, requests) ->
  exists id, In (GetBlock id) requests /\ eth_getBlock w id = Some result.
Proof.
  intro H.
  destruct (eth_getBlock w Latest) as [head|] eqn:Hhead.
  - destruct (Qlt_le_dec (inject_Z (timestamp head)) (inject_Z t / 1000)) as [Hlt|Hle].
    + rewrite (findBlock_future_timestamp w fuel t head Hhead Hlt) in H. discriminate H.
    + rewrite (findBlock_setup w fuel t head Hhead Hle) in H.
      destruct (eth_getBlock w (blockId (Some (number head - 10000)))) as [ref|] eqn:Href.
      * rewrite (bind_block_ok w _ ref) in H by exact Href. cbn [fst snd] in H.
        injection H as Hres Hreq. subst requests.
        destruct (search_result_served fuel (inject_Z t / 1000)
                    (avgBlockDurationSec head ref) ref POSITIVE_INFINITY w result
                    (snd (search fuel (inject_Z t / 1000) (avgBlockDurationSec head ref)
                                 ref POSITIVE_INFINITY w)))
          as [Heq|[id [Hin Hid]]].
        -- now apply injective_projections.
        -- subst result. exists (blockId (Some (number head - 10000))).
           split; [right; now left | exact Href].
        -- exists id. split; [right; now right | exact Hid].
      * rewrite bind_block_fail in H by exact Href. discriminate H.
  - unfold findBlock in H. rewrite bind_block_fail in H by exact Hhead. discriminate H.
Qed.

Lemma findBlock_result_served_witness :
  exists id,
    In (GetBlock id) [GetBlock Latest; GetBlock (Num 10000); GetBlock (Num 15000)] /\
    eth_getBlock (web3_of_chain (twelve_seconds 20000)) id
    = Some (blockAt (twelve_seconds 20000) 15000).
Proof.
  apply (findBlock_result_served (web3_of_chain (twelve_seconds 20000)) 5 1180000000).
  vm_compute. reflexivity.
Defined.

End FindBlockOutcomes.

(** * The search on particular chains *)

Section SearchCycles.

Variables (w : Web3) (target avg : Q) (a b : BlockInfo) (k : Z).

Hypothesis k_positive : 0 < k.
Hypothesis a_positive : 0 < number a.
Hypothesis b_number : number b = number a + k.
Hypothesis a_served : eth_getBlock w (Num (number a)) = Some a.
Hypothesis b_served : eth_getBlock w (Num (number b)) = Some b.
Hypothesis a_far : (avg <= Qabs (inject_Z (timestamp a) - target))%Q.
Hypothesis b_far : (avg <= Qabs (inject_Z (timestamp b) - target))%Q.
Hypothesis a_estimate : estDistanceInBlocks a target avg = - k.
Hypothesis b_estimate : estDistanceInBlocks b target avg = k.

Lemma blockId_positive (n : Z) : 0 < n -> blockId (Some n) = Num n.
Proof.
  intro Hn. unfold blockId. destruct (n =? 0) eqn:E; [|reflexivity].
  apply Z.eqb_eq in E. exfalso. lia.
Qed.

Lemma search_cycle fuel :
  (forall previous, exceeds k previous = false ->
                    fst (search fuel target avg a previous w) = OutOfFuel) /\
  fst (search fuel target avg b (Finite k) w) = OutOfFuel.
Proof.
  induction fuel as [|fuel [IHa IHb]].
  - split; reflexivity.
  - split.
    + intros previous Hprev.
      rewrite search_step; rewrite ?a_estimate;
        [ | exact a_far | rewrite Z.abs_opp, Z.abs_eq by lia; exact Hprev | lia ].
      replace (number a - - k) with (number b) by lia.
      assert (Hid : eth_getBlock w (blockId (Some (number b))) = Some b).
      { rewrite blockId_positive by lia. exact b_served. }
      rewrite (bind_block_ok w _ b) by exact Hid. cbn [fst].
      rewrite Z.abs_opp, Z.abs_eq by lia. exact IHb.
    + rewrite search_step; rewrite ?b_estimate;
        [ | exact b_far | rewrite Z.abs_eq by lia; simpl; apply Z.ltb_irrefl | lia ].
      replace (number b - k) with (number a) by lia.
      assert (Hid : eth_getBlock w (blockId (Some (number a))) = Some a).
      { rewrite blockId_positive by lia. exact a_served. }
      rewrite (bind_block_ok w _ a) by exact Hid. cbn [fst].
      rewrite Z.abs_eq by lia. apply IHa. simpl. apply Z.ltb_irrefl.
Qed.

End SearchCycles.

Section NeverEnds.

(** The loop of [findBlock] need not end.  When two blocks, both at least
    the average duration away from the target, have opposite estimated
    distances that lead from each to the other, the search started at the
    first of them alternates between the two for ever: whatever the fuel, it
    neither returns nor throws. *)
Theorem search_never_ends (w : Web3) (target avg : Q) (a b : BlockInfo) (k : Z)
        (previous : Distance) (fuel : nat) :
  0 < k ->
  0 < number a ->
  number b = number a + k ->
  eth_getBlock w (Num (number a)) = Some a ->
  eth_getBlock w (Num (number b)) = Some b ->
  (avg <= Qabs (inject_Z (timestamp a) - target))%Q ->
  (avg <= Qabs (inject_Z (timestamp b) - target))%Q ->
  estDistanceInBlocks a target avg = - k ->
  estDistanceInBlocks b target avg = k ->
  exceeds k previous = false ->
  fst (search fuel target avg a previous w) = OutOfFuel.
Proof.
  intros Hk Ha Hb Hsa Hsb Hfa Hfb Hea Heb Hprev.
  exact (proj1 (search_cycle w target avg a b k Hk Ha Hb Hsa Hsb Hfa Hfb Hea Heb fuel)
               previous Hprev).
Qed.

Lemma search_never_ends_witness :
  fst (search 1000 (inject_Z 1025001000 / 1000) 1
              (blockAt paired_blocks 25000) POSITIVE_INFINITY
              (web3_of_chain paired_blocks)) = OutOfFuel.
Proof.
  apply (search_never_ends (web3_of_chain paired_blocks) (inject_Z 1025001000 / 1000) 1
                           (blockAt paired_blocks 25000) (blockAt paired_blocks 25001) 1
                           POSITIVE_INFINITY 1000);
    try reflexivity; vm_compute; discriminate.
Defined.

End NeverEnds.

Section UniformSpacing.

Lemma floor_remainder (d avg : Q) :
  (0 < avg)%Q ->
  (0 <= d - inject_Z (Qfloor (d / avg)) * avg)%Q /\
  (d - inject_Z (Qfloor (d / avg)) * avg < avg)%Q.
Proof.
  intro Havg.
  assert (Hx : (d / avg * avg == d)%Q).
  { field. intro E. rewrite E in Havg. discriminate Havg. }
  pose proof (Qfloor_le (d / avg)) as Hlo.
  pose proof (Qlt_floor (d / avg)) as Hhi.
  rewrite inject_Z_plus in Hhi.
  set (f := inject_Z (Qfloor (d / avg))) in *.
  set (x := (d / avg)%Q) in *.
  split.
  - assert (f * avg <= x * avg)%Q by (apply Qmult_le_compat_r; [exact Hlo | now apply Qlt_le_weak]).
    rewrite Hx in H. lra.
  - assert (x * avg < (f + inject_Z 1) * avg)%Q by (apply Qmult_lt_compat_r; assumption).
    rewrite Hx in H. change (inject_Z 1) with 1%Q in H. lra.
Qed.

Lemma seconds_lower (a t : Z) : a * 1000 <= t -> (inject_Z a <= inject_Z t / 1000)%Q.
Proof.
  intro H. apply Qle_shift_div_l; [reflexivity|].
  change 1000%Q with (inject_Z 1000). rewrite <- inject_Z_mult, <- Zle_Qle. exact H.
Qed.

Lemma seconds_upper (a t : Z) : t <= a * 1000 -> (inject_Z t / 1000 <= inject_Z a)%Q.
Proof.
  intro H. apply Qle_shift_div_r; [reflexivity|].
  change 1000%Q with (inject_Z 1000). rewrite <- inject_Z_mult, <- Zle_Qle. exact H.
Qed.

Lemma served_in_range (c : Chain) (n : Z) :
  1 <= n <= headNumber c ->
  eth_getBlock (web3_of_chain c) (blockId (Some n)) = Some (blockAt c n).
Proof.
  intro Hn. rewrite blockId_positive by lia.
  cbn [web3_of_chain eth_getBlock].
  replace ((0 <=? n) && (n <=? headNumber c)) with true; [reflexivity|].
  symmetry. apply andb_true_iff. split; apply Z.leb_le; lia.
Qed.

(** On a chain with a constant spacing of at least one second and more than
    10,000 blocks below the head, [findBlock] for a target between the
    timestamps of block 1 and of the head returns, after at most one step
    of the search, a block whose timestamp is less than one spacing away
    from the target. *)
Theorem findBlock_uniform_chain (genesis spacing head t : Z) (fuel : nat) :
  1 <= spacing ->
  10000 < head ->
  (genesis + spacing) * 1000 <= t ->
  t <= (genesis + spacing * head) * 1000 ->
  (2 <= fuel)%nat ->
  let c := uniform genesis spacing head in
  exists n requests,
    findBlock fuel t (web3_of_chain c) = (Ok (blockAt c n), requests) /\
    1 <= n <= head /\
    (Qabs (inject_Z (timestampOf c n) - inject_Z t / 1000) < inject_Z spacing)%Q /\
    (List.length requests <= 3)%nat.
Proof.
  intros Hs Hlong Hlo Hhi Hfuel c.
  set (w := web3_of_chain c). set (tau := (inject_Z t / 1000)%Q).
  assert (Htau_lo : (inject_Z (genesis + spacing) <= tau)%Q) by (now apply seconds_lower).
  assert (Htau_hi : (tau <= inject_Z (genesis + spacing * head))%Q) by (now apply seconds_upper).
  set (headB := headBlock c). set (ref := blockAt c (head - 10000)).
  assert (Hhead : eth_getBlock w Latest = Some headB) by reflexivity.
  rewrite (findBlock_setup w fuel t headB Hhead Htau_hi).
  assert (Href : eth_getBlock w (blockId (Some (number headB - 10000))) = Some ref).
  { apply (served_in_range c (head - 10000)). cbn [c uniform headNumber]. lia. }
  rewrite (bind_block_ok w _ ref) by exact Href. cbn [fst snd].
  assert (Hdiff : timestamp headB - timestamp ref = spacing * 10000).
  { cbn [headB ref headBlock blockAt timestamp c uniform timestampOf headNumber]. ring. }
  assert (Hd : 10000 <= timestamp headB - timestamp ref) by (rewrite Hdiff; lia).
  rewrite (avg_of_slow_chain headB ref Hd). rewrite Hdiff.
  set (avg := (inject_Z (spacing * 10000) / 10000)%Q).
  assert (Havg : (avg == inject_Z spacing)%Q).
  { unfold avg. rewrite inject_Z_mult. field. }
  assert (Hpos : (0 < avg)%Q).
  { rewrite Havg. change 0%Q with (inject_Z 0). rewrite <- Zlt_Qlt. lia. }
  destruct fuel as [|[|fuel]]; [lia | lia | clear Hfuel].
  destruct (Qlt_le_dec (Qabs (inject_Z (timestamp ref) - tau)) avg) as [Hnear|Hfar].
  - (* the reference block is already close enough *)
    exists (head - 10000), [GetBlock Latest; GetBlock (blockId (Some (number headB - 10000)))].
    rewrite search_close by exact Hnear.
    split; [reflexivity|]. split; [lia|]. split; [|simpl; lia].
    rewrite <- Havg. exact Hnear.
  - set (f := estDistanceInBlocks ref tau avg).
    destruct (floor_remainder (inject_Z (timestamp ref) - tau) avg Hpos) as [Hrem_lo Hrem_hi].
    fold (distanceInSeconds ref tau) in Hrem_lo, Hrem_hi.
    change (Qfloor (distanceInSeconds ref tau / avg)) with f in Hrem_lo, Hrem_hi.
    unfold distanceInSeconds in Hrem_lo, Hrem_hi.
    assert (Hts : timestamp ref = genesis + spacing * (head - 10000)) by reflexivity.
    rewrite Havg in Hrem_lo, Hrem_hi. rewrite <- inject_Z_mult in Hrem_lo, Hrem_hi.
    assert (Hf_hi : f <= head - 10001).
    { assert (Hq : (inject_Z (f * spacing) <= inject_Z (timestamp ref - (genesis + spacing)))%Q).
      { unfold Z.sub at 1. rewrite inject_Z_plus, inject_Z_opp. lra. }
      rewrite <- Zle_Qle in Hq. rewrite Hts in Hq.
      apply (Z.mul_le_mono_pos_r _ _ spacing); [lia|].
      replace ((head - 10001) * spacing)
        with (genesis + spacing * (head - 10000) - (genesis + spacing)) by ring.
      exact Hq. }
    assert (Hf_lo : - 10000 <= f).
    { assert (Hq : (inject_Z (timestamp ref - (genesis + spacing * head))
                    < inject_Z (f * spacing + spacing))%Q).
      { unfold Z.sub at 1. rewrite !inject_Z_plus, inject_Z_opp. lra. }
      rewrite <- Zlt_Qlt in Hq. rewrite Hts in Hq.
      assert (- 10000 < f + 1); [|lia].
      apply (Z.mul_lt_mono_pos_r spacing); [lia|].
      replace (- 10000 * spacing)
        with (genesis + spacing * (head - 10000) - (genesis + spacing * head)) by ring.
      replace ((f + 1) * spacing) with (f * spacing + spacing) by ring.
      exact Hq. }
    set (n := head - 10000 - f).
    assert (Hn : 1 <= n <= head) by (unfold n; lia).
    exists n, [GetBlock Latest; GetBlock (blockId (Some (number headB - 10000)));
               GetBlock (blockId (Some n))].
    rewrite search_step; [ | exact Hfar | reflexivity | change (0 <= head - 10000 - f); lia ].
    fold f. change (number ref - f) with n.
    rewrite (bind_block_ok w _ (blockAt c n)) by (apply served_in_range; exact Hn).
    assert (Hclose : (Qabs (inject_Z (timestamp (blockAt c n)) - tau) < avg)%Q).
    { assert (Hnts : timestamp (blockAt c n) = timestamp ref - f * spacing).
      { cbn [blockAt timestamp c uniform timestampOf ref]. unfold n. ring. }
      rewrite Hnts. unfold Z.sub. rewrite inject_Z_plus, inject_Z_opp.
      rewrite Havg. rewrite Qabs_pos; lra. }
    rewrite search_close by exact Hclose.
    split; [reflexivity|]. split; [exact Hn|]. split; [|simpl; lia].
    rewrite <- Havg. exact Hclose.
Qed.

Lemma findBlock_uniform_chain_witness :
  exists n requests,
    findBlock 2 1180006000 (web3_of_chain (uniform 1000000 12 20000))
    = (Ok (blockAt (uniform 1000000 12 20000) n), requests) /\
    1 <= n <= 20000 /\
    (Qabs (inject_Z (timestampOf (uniform 1000000 12 20000) n) - inject_Z 1180006000 / 1000)
     < inject_Z 12)%Q /\
    (List.length requests <= 3)%nat.
Proof.
  apply (findBlock_uniform_chain 1000000 12 20000 1180006000 2); lia.
Defined.

Lemma uniform_distance (genesis spacing n : Z) :
  (inject_Z (genesis + spacing * n) - inject_Z (genesis * 1000) / 1000
   == inject_Z (spacing * n))%Q.
Proof.
  rewrite target_of_seconds, inject_Z_plus. ring.
Qed.

Lemma uniform_estimate (genesis spacing n : Z) :
  1 <= spacing ->
  Qfloor ((inject_Z (genesis + spacing * n) - inject_Z (genesis * 1000) / 1000)
          / (inject_Z (spacing * 10000) / 10000)) = n.
Proof.
  intro Hs.
  assert (Hne : ~ (inject_Z spacing == 0)%Q).
  { intro E. unfold Qeq in E. simpl in E. lia. }
  assert (E : ((inject_Z (genesis + spacing * n) - inject_Z (genesis * 1000) / 1000)
               / (inject_Z (spacing * 10000) / 10000) == inject_Z n)%Q).
  { rewrite uniform_distance, !inject_Z_mult. field. exact Hne. }
  rewrite E. apply Qfloor_Z.
Qed.

Lemma uniform_far (genesis spacing n : Z) :
  1 <= spacing -> 1 <= n ->
  (inject_Z (spacing * 10000) / 10000
   <= Qabs (inject_Z (genesis + spacing * n) - inject_Z (genesis * 1000) / 1000))%Q.
Proof.
  intros Hs Hn.
  rewrite uniform_distance, Qabs_pos.
  - apply Qle_shift_div_r; [reflexivity|].
    change 10000%Q with (inject_Z 10000). rewrite <- inject_Z_mult, <- Zle_Qle. nia.
  - change 0%Q with (inject_Z 0). rewrite <- Zle_Qle. nia.
Qed.

(** The same chains at the timestamp of the genesis block: the search steps
    from the reference block to number 0, for which [block] asks for the
    latest block; the estimate from there is larger than the previous one,
    and [findBlock] returns the head block. *)
Theorem findBlock_genesis_timestamp (genesis spacing head : Z) (fuel : nat) :
  1 <= spacing ->
  10000 < head ->
  (2 <= fuel)%nat ->
  let c := uniform genesis spacing head in
  findBlock fuel (timestampOf c 0 * 1000) (web3_of_chain c) =
  (Ok (headBlock c), [GetBlock Latest; GetBlock (Num (head - 10000)); GetBlock Latest])
  /\ headBlock c <> blockAt c 0.
Proof.
  intros Hs Hlong Hfuel c. split.
  - set (w := web3_of_chain c).
    replace (timestampOf c 0 * 1000) with (genesis * 1000)
      by (cbn [c uniform timestampOf]; ring).
    set (headB := headBlock c). set (ref := blockAt c (head - 10000)).
    assert (Hnf : (inject_Z (genesis * 1000) / 1000 <= inject_Z (timestamp headB))%Q).
    { apply seconds_upper. cbn [headB headBlock blockAt timestamp c uniform timestampOf headNumber].
      nia. }
    rewrite (findBlock_setup w fuel _ headB eq_refl Hnf).
    assert (Href : eth_getBlock w (blockId (Some (number headB - 10000))) = Some ref).
    { apply (served_in_range c (head - 10000)). cbn [c uniform headNumber]. lia. }
    rewrite (bind_block_ok w _ ref) by exact Href. cbn [fst snd].
    change (number headB) with head. rewrite (blockId_positive (head - 10000)) by lia.
    assert (Hdiff : timestamp headB - timestamp ref = spacing * 10000).
    { cbn [headB ref headBlock blockAt timestamp c uniform timestampOf headNumber]. ring. }
    assert (Hd : 10000 <= timestamp headB - timestamp ref) by (rewrite Hdiff; lia).
    rewrite (avg_of_slow_chain headB ref Hd). rewrite Hdiff.
    destruct fuel as [|[|fuel]]; [lia | lia | clear Hfuel].
    assert (Hest1 : estDistanceInBlocks ref (inject_Z (genesis * 1000) / 1000)
                      (inject_Z (spacing * 10000) / 10000) = head - 10000).
    { apply uniform_estimate. exact Hs. }
    assert (Hest2 : estDistanceInBlocks headB (inject_Z (genesis * 1000) / 1000)
                      (inject_Z (spacing * 10000) / 10000) = head).
    { apply uniform_estimate. exact Hs. }
    rewrite search_step; rewrite ?Hest1;
      [ | apply (uniform_far genesis spacing (head - 10000)); lia | reflexivity
        | change (number ref) with (head - 10000); lia ].
    replace (number ref - (head - 10000)) with 0
      by (change (number ref) with (head - 10000); lia).
    rewrite (bind_block_ok w (Some 0) headB) by reflexivity. cbn [fst snd blockId Z.eqb].
    rewrite search_guard; rewrite ?Hest2;
      [ reflexivity | apply (uniform_far genesis spacing head); lia
        | simpl; apply Z.ltb_lt; lia ].
  - cbn [c uniform headBlock blockAt headNumber timestampOf]. intro E.
    injection E as E _. lia.
Qed.

Lemma findBlock_genesis_timestamp_witness :
  findBlock 2 (timestampOf (uniform 1000000 12 20000) 0 * 1000)
            (web3_of_chain (uniform 1000000 12 20000)) =
  (Ok (headBlock (uniform 1000000 12 20000)),
   [GetBlock Latest; GetBlock (Num (20000 - 10000)); GetBlock Latest])
  /\ headBlock (uniform 1000000 12 20000) <> blockAt (uniform 1000000 12 20000) 0.
Proof.
  apply (findBlock_genesis_timestamp 1000000 12 20000 2); lia.
Defined.

End UniformSpacing.

(** * Further properties of estimateGasPrice *)

Section EstimateOutcomes.

Lemma estimateGasPrice_needs_number (w : Web3) retries percentiles length :
  eth_getBlockNumber w = None ->
  exists e, fst (estimateGasPrice retries percentiles length w) = Throw e.
Proof.
  intro H. unfold estimateGasPrice.
  destruct (eth_getBlock w Pending) as [pendingBlock|] eqn:Hpending.
  - exists (RpcError GetBlockNumber).
    apply keepTrying_throw
      with (q := [GetBlock Pending; GetBlockNumber; GetFeeHistory length Pending percentiles]).
    unfold estimateGasPrice_attempt, bind, Promise_all3, catch,
      getBlock, getBlockNumber, getFeeHistory, request.
    rewrite H, Hpending.
    destruct (eth_getFeeHistory w length Pending percentiles); reflexivity.
  - exists (RpcError (GetBlock Pending)).
    now apply estimateGasPrice_needs_pending.
Qed.

(** [estimateGasPrice] returns an estimate exactly when the client serves
    both the pending block and the latest block number; whether the fee
    history is served plays no part. *)
Theorem estimateGasPrice_succeeds_iff
        (w : Web3) (retries : nat) (percentiles : list Z) (length : Z) :
  (exists r, fst (estimateGasPrice retries percentiles length w) = Ok r) <->
  (exists pendingBlock, eth_getBlock w Pending = Some pendingBlock) /\
  (exists latestBlockNumber, eth_getBlockNumber w = Some latestBlockNumber).
Proof.
  split.
  - intros [r Hr].
    destruct (eth_getBlock w Pending) as [pendingBlock|] eqn:Hpending.
    + destruct (eth_getBlockNumber w) as [latestBlockNumber|] eqn:Hnumber.
      * split; eauto.
      * destruct (estimateGasPrice_needs_number w retries percentiles length Hnumber)
          as [e He].
        rewrite He in Hr. discriminate Hr.
    + rewrite (estimateGasPrice_needs_pending w retries percentiles length Hpending) in Hr.
      discriminate Hr.
  - intros [[pendingBlock Hpending] [latestBlockNumber Hnumber]].
    rewrite (estimateGasPrice_run w retries percentiles length _ _ Hpending Hnumber).
    eexists. reflexivity.
Qed.

(** A base fee of 0 in the pending block is falsy and is replaced by 1e8
    like an absent one; any other base fee is reported as it is. *)
Theorem estimateGasPrice_reported_baseFee
        (w : Web3) (retries : nat) (percentiles : list Z) (length : Z)
        (pendingBlock : BlockInfo) (latestBlockNumber : Z) (fee : Z) :
  eth_getBlock w Pending = Some pendingBlock ->
  eth_getBlockNumber w = Some latestBlockNumber ->
  Rpc.baseFeePerGas pendingBlock = Some fee ->
  exists r,
    fst (estimateGasPrice retries percentiles length w) = Ok r /\
    (fee = 0 -> baseFeePerGas r = bn 100000000) /\
    (fee <> 0 -> baseFeePerGas r = bn fee).
Proof.
  intros Hpending Hnumber Hfee.
  rewrite (estimateGasPrice_run w retries percentiles length _ _ Hpending Hnumber).
  rewrite Hfee. eexists. split; [reflexivity|].
  cbn [baseFeePerGas or_default]. split; intro H.
  - subst fee. reflexivity.
  - apply Z.eqb_neq in H. now rewrite H.
Qed.

Lemma estimateGasPrice_reported_baseFee_witness :
  exists r,
    fst (estimateGasPrice 2 default_percentiles default_length
           (gas_client (mkBlock 20001 1240012 (Some 0)) 20000 None)) = Ok r /\
    (0 = 0 -> baseFeePerGas r = bn 100000000) /\
    (0 <> 0 -> baseFeePerGas r = bn 0).
Proof.
  apply (estimateGasPrice_reported_baseFee
           (gas_client (mkBlock 20001 1240012 (Some 0)) 20000 None)
           2 default_percentiles default_length
           (mkBlock 20001 1240012 (Some 0)) 20000 0); reflexivity.
Defined.

Lemma round_half_up_mono (x y : Q) : (x <= y)%Q -> round_half_up x <= round_half_up y.
Proof.
  intro Hxy. unfold round_half_up.
  destruct (Qle_bool 0 x) eqn:Hx, (Qle_bool 0 y) eqn:Hy.
  - apply Qfloor_resp_le. lra.
  - apply Qle_bool_iff in Hx.
    assert (y < 0)%Q by (apply Qnot_le_lt; intro Hc; apply Qle_bool_iff in Hc; congruence).
    exfalso. lra.
  - assert (x < 0)%Q by (apply Qnot_le_lt; intro Hc; apply Qle_bool_iff in Hc; congruence).
    apply Qle_bool_iff in Hy.
    apply Z.le_trans with 0.
    + change 0 with (Qceiling 0). apply Qceiling_resp_le. lra.
    + change 0 with (Qfloor 0). apply Qfloor_resp_le. lra.
  - apply Qceiling_resp_le. lra.
Qed.

(** When the base fee of the pending block is not negative, the [max] of
    each tier of the estimate is at least its [tip]. *)
Theorem estimateGasPrice_max_covers_tip
        (w : Web3) (retries : nat) (percentiles : list Z) (length : Z)
        (pendingBlock : BlockInfo) (latestBlockNumber : Z) :
  eth_getBlock w Pending = Some pendingBlock ->
  eth_getBlockNumber w = Some latestBlockNumber ->
  (forall fee, Rpc.baseFeePerGas pendingBlock = Some fee -> 0 <= fee) ->
  exists r,
    fst (estimateGasPrice retries percentiles length w) = Ok r /\
    max_covers_tip (slow r) /\ max_covers_tip (med r) /\ max_covers_tip (fast r).
Proof.
  intros Hpending Hnumber Hfee.
  rewrite (estimateGasPrice_run w retries percentiles length _ _ Hpending Hnumber).
  eexists. split; [reflexivity|].
  assert (Hbase : 0 <= or_default (Rpc.baseFeePerGas pendingBlock) (10 ^ 8)).
  { unfold or_default. destruct (Rpc.baseFeePerGas pendingBlock) as [fee|]; [|lia].
    destruct (fee =? 0); [lia | now apply Hfee]. }
  assert (Htier : forall m : BN,
             max_covers_tip
               {| max := integerValue
                           (plus (times (bn (or_default (Rpc.baseFeePerGas pendingBlock) (10 ^ 8)))
                                        (5 # 4)) m);
                  tip := integerValue m |}).
  { intros [q|]; [|exact I].
    unfold max_covers_tip. cbn [tip max integerValue plus times bn bn_of_Z option_map].
    rewrite <- Zle_Qle. apply round_half_up_mono.
    assert (0 <= inject_Z (or_default (Rpc.baseFeePerGas pendingBlock) (10 ^ 8)))%Q
      by (change 0%Q with (inject_Z 0); now rewrite <- Zle_Qle).
    lra. }
  cbn [slow med fast]. repeat split; apply Htier.
Qed.

Lemma estimateGasPrice_max_covers_tip_witness :
  exists r,
    fst (estimateGasPrice 2 default_percentiles default_length
           (gas_client (mkBlock 20001 1240012 (Some 1001)) 20000
              (Some [["1"; "2"; "3"]; ["3"; "4"; "5"]; ["5"; "6"; "7"]]%string))) = Ok r /\
    max_covers_tip (slow r) /\ max_covers_tip (med r) /\ max_covers_tip (fast r).
Proof.
  apply (estimateGasPrice_max_covers_tip
           (gas_client (mkBlock 20001 1240012 (Some 1001)) 20000
              (Some [["1"; "2"; "3"]; ["3"; "4"; "5"]; ["5"; "6"; "7"]]%string))
           2 default_percentiles default_length
           (mkBlock 20001 1240012 (Some 1001)) 20000); try reflexivity.
  intros fee Hfee. injection Hfee as Hfee. subst fee. lia.
Defined.

End EstimateOutcomes.

Section UniformExact.

(** On such a chain [findBlock] inverts timestamps: for the timestamp of
    block [k], with [1 <= k <= head], it returns block [k]. *)
Theorem findBlock_uniform_exact (genesis spacing head k : Z) (fuel : nat) :
  1 <= spacing ->
  10000 < head ->
  1 <= k <= head ->
  (2 <= fuel)%nat ->
  let c := uniform genesis spacing head in
  fst (findBlock fuel (timestampOf c k * 1000) (web3_of_chain c)) = Ok (blockAt c k).
Proof.
  intros Hs Hlong Hk Hfuel c.
  assert (Hlo : (genesis + spacing) * 1000 <= timestampOf c k * 1000).
  { cbn [c uniform timestampOf]. nia. }
  assert (Hhi : timestampOf c k * 1000 <= (genesis + spacing * head) * 1000).
  { cbn [c uniform timestampOf]. nia. }
  destruct (findBlock_uniform_chain genesis spacing head (timestampOf c k * 1000) fuel
              Hs Hlong Hlo Hhi Hfuel)
    as [n [requests [Hrun [Hn [Hclose _]]]]].
  fold c in Hrun, Hclose. rewrite Hrun. cbn [fst].
  rewrite target_of_seconds in Hclose.
  apply Qabs_Qlt_condition in Hclose. destruct Hclose as [Hclo Hchi].
  assert (Hq : (inject_Z (timestampOf c n) - inject_Z (timestampOf c k)
                == inject_Z (spacing * (n - k)))%Q).
  { cbn [c uniform timestampOf]. unfold Qeq. simpl. ring. }
  rewrite Hq in Hclo, Hchi. rewrite <- inject_Z_opp in Hclo.
  rewrite <- Zlt_Qlt in Hclo, Hchi.
  assert (n = k) by nia. now subst n.
Qed.

Lemma findBlock_uniform_exact_witness :
  fst (findBlock 2 (timestampOf (uniform 1000000 12 20000) 15000 * 1000)
                 (web3_of_chain (uniform 1000000 12 20000)))
  = Ok (blockAt (uniform 1000000 12 20000) 15000).
Proof.
  apply (findBlock_uniform_exact 1000000 12 20000 15000 2); lia.
Defined.

End UniformExact.

(** * The web3 instance and the current network (src/network.ts) *)

Section CurrentNetwork.

(** Identifiers and short names are keys of the table: looking an entry up
    by either finds that entry. *)
Lemma networks_keys (m : NetworkTs.Network) :
  In m (map snd NetworkTs.networks) ->
  NetworkTs.find_network (fun x => (NetworkTs.id x =? NetworkTs.id m)) = Some m /\
  NetworkTs.find_network
    (fun x => String.eqb (NetworkTs.shortname x) (NetworkTs.shortname m)) = Some m /\
  NetworkTs.id m <> 0 /\ NetworkTs.shortname m <> EmptyString.
Proof.
  intro Hin. simpl in Hin.
  repeat (destruct Hin as [Hin|Hin]; [subst m; repeat split; discriminate|]).
  contradiction.
Qed.

Lemma web3_with_instance (env : NetworkTs.Env) (st : NetworkTs.State) (i : NetworkTs.Instance) :
  NetworkTs.web3Instance st = Some i ->
  NetworkTs.web3 env st = (NetworkTs.Returns i, st).
Proof.
  intro H. unfold NetworkTs.web3. now rewrite H.
Qed.

(** Once [web3()] has returned an instance, every later call returns the
    same instance and leaves the state as it is, whatever the environment
    has become. *)
Theorem web3_cached (env env' : NetworkTs.Env) (st st' : NetworkTs.State)
        (i : NetworkTs.Instance) :
  NetworkTs.web3 env st = (NetworkTs.Returns i, st') ->
  NetworkTs.web3 env' st' = (NetworkTs.Returns i, st').
Proof.
  intro H. apply web3_with_instance.
  unfold NetworkTs.web3 in H.
  destruct (NetworkTs.web3Instance st) as [j|] eqn:Hst.
  - injection H as Hi Hs. now subst.
  - destruct (NetworkTs.truthy (NetworkTs.NODE env)).
    + cbn [NetworkTs.web3Instance] in H.
      destruct (NetworkTs.hardhat_web3 env) as [j|]; [|discriminate H].
      injection H as Hi Hs. now subst.
    + rewrite Hst in H. discriminate H.
Qed.

Lemma web3_cached_witness :
  let i := NetworkTs.mkInstance (web3_of_chain (twelve_seconds 20000)) (Some 1) in
  NetworkTs.web3 (NetworkTs.mkEnv None None None) (NetworkTs.mkState (Some i))
  = (NetworkTs.Returns i, NetworkTs.mkState (Some i)).
Proof.
  intro i.
  apply (web3_cached (NetworkTs.mkEnv None (Some "1"%string) (Some i))
                     (NetworkTs.mkEnv None None None)
                     (NetworkTs.mkState None) (NetworkTs.mkState (Some i)) i).
  reflexivity.
Defined.

(** With [NETWORK] set to the short name of a network of the table, in any
    letter case, [chainId()] is that network's identifier; the web3 instance
    is not consulted. *)
Theorem chainId_of_NETWORK (env : NetworkTs.Env) (st : NetworkTs.State)
        (n : NetworkTs.Network) (s : string) :
  In n (map snd NetworkTs.networks) ->
  NetworkTs.NETWORK env = Some s ->
  NetworkTs.toLowerCase s = NetworkTs.shortname n ->
  NetworkTs.chainId env st = (NetworkTs.Returns (NetworkTs.id n), st).
Proof.
  intros Hin Henv Hlow.
  destruct (networks_keys n Hin) as [_ [Hfind [Hid Hname]]].
  unfold NetworkTs.chainId, NetworkTs.currentNetwork. rewrite Henv.
  destruct s as [|c s].
  - simpl in Hlow. congruence.
  - cbn [NetworkTs.truthy]. rewrite Hlow, Hfind.
    apply Z.eqb_neq in Hid. now rewrite Hid.
Qed.

Lemma chainId_of_NETWORK_witness :
  NetworkTs.chainId (NetworkTs.mkEnv (Some "Poly"%string) None None) (NetworkTs.mkState None)
  = (NetworkTs.Returns 137, NetworkTs.mkState None).
Proof.
  apply (chainId_of_NETWORK (NetworkTs.mkEnv (Some "Poly"%string) None None)
                            (NetworkTs.mkState None)
                            (NetworkTs.mkNetwork 137 "Polygon" "poly" "https://polygon-rpc.com")
                            "Poly"%string).
  - simpl. tauto.
  - reflexivity.
  - reflexivity.
Defined.

(** With [NETWORK] unset or empty and a web3 instance on the chain of a
    network of the table, [chainId()] is the chain identifier the instance
    reports. *)
Theorem chainId_of_instance (env : NetworkTs.Env) (st : NetworkTs.State)
        (i : NetworkTs.Instance) (n : NetworkTs.Network) :
  In n (map snd NetworkTs.networks) ->
  NetworkTs.truthy (NetworkTs.NETWORK env) = false ->
  NetworkTs.web3Instance st = Some i ->
  NetworkTs.eth_getChainId i = Some (NetworkTs.id n) ->
  NetworkTs.chainId env st = (NetworkTs.Returns (NetworkTs.id n), st).
Proof.
  intros Hin Henv Hst Hchain.
  destruct (networks_keys n Hin) as [Hfind [_ [Hid _]]].
  unfold NetworkTs.chainId, NetworkTs.currentNetwork, NetworkTs.hasWeb3Instance.
  rewrite Henv, Hst, (web3_with_instance env st i Hst), Hchain, Hfind.
  apply Z.eqb_neq in Hid. now rewrite Hid.
Qed.

Lemma chainId_of_instance_witness :
  let i := NetworkTs.mkInstance (web3_of_chain (twelve_seconds 20000)) (Some 56) in
  NetworkTs.chainId (NetworkTs.mkEnv None None None) (NetworkTs.mkState (Some i))
  = (NetworkTs.Returns 56, NetworkTs.mkState (Some i)).
Proof.
  intro i.
  apply (chainId_of_instance (NetworkTs.mkEnv None None None) (NetworkTs.mkState (Some i)) i
           (NetworkTs.mkNetwork 56 "BinanceSmartChain" "bsc" "https://bsc-dataseed.binance.org"));
    try reflexivity.
  simpl. tauto.
Defined.

Lemma find_network_none (predicate : NetworkTs.Network -> bool) :
  (forall n, In n (map snd NetworkTs.networks) -> predicate n = false) ->
  NetworkTs.find_network predicate = None.
Proof.
  unfold NetworkTs.find_network. generalize (map snd NetworkTs.networks).
  intros l H. induction l as [|x l IH]; [reflexivity|].
  simpl. rewrite (H x) by now left. apply IH. intros n Hn. apply H. now right.
Qed.

(** A non-empty [NETWORK] that is the short name of no network of the table
    makes [chainId()] return 0, even when a web3 instance is set: the chain
    of the instance is not asked for. *)
Theorem chainId_unknown_NETWORK (env : NetworkTs.Env) (st : NetworkTs.State) (s : string) :
  NetworkTs.NETWORK env = Some s ->
  s <> EmptyString ->
  NetworkTs.ascii_only s = true ->
  (forall n, In n (map snd NetworkTs.networks) ->
             NetworkTs.shortname n <> NetworkTs.toLowerCase s) ->
  NetworkTs.chainId env st = (NetworkTs.Returns 0, st).
Proof.
  intros Henv Hne _ Hunknown.
  unfold NetworkTs.chainId, NetworkTs.currentNetwork. rewrite Henv.
  destruct s as [|c s]; [congruence|]. cbn [NetworkTs.truthy].
  rewrite find_network_none; [reflexivity|].
  intros n Hn. apply String.eqb_neq. now apply Hunknown.
Qed.

Lemma chainId_unknown_NETWORK_witness :
  let i := NetworkTs.mkInstance (web3_of_chain (twelve_seconds 20000)) (Some 1) in
  NetworkTs.chainId (NetworkTs.mkEnv (Some "mainnet"%string) None None)
                    (NetworkTs.mkState (Some i))
  = (NetworkTs.Returns 0, NetworkTs.mkState (Some i)).
Proof.
  intro i.
  apply (chainId_unknown_NETWORK (NetworkTs.mkEnv (Some "mainnet"%string) None None)
                                 (NetworkTs.mkState (Some i)) "mainnet"%string);
    try reflexivity; try discriminate.
  intros n Hn. simpl in Hn.
  repeat (destruct Hn as [Hn|Hn]; [subst n; discriminate|]). contradiction.
Defined.

(** [chainId()] never changes the web3 instance, and what it returns is 0 or
    the identifier of a network of the table. *)
Theorem chainId_known_or_zero (env : NetworkTs.Env) (st st' : NetworkTs.State) (c : Z) :
  NetworkTs.chainId env st = (NetworkTs.Returns c, st') ->
  st' = st /\
  (c = 0 \/ exists n, In n (map snd NetworkTs.networks) /\ NetworkTs.id n = c).
Proof.
  unfold NetworkTs.chainId, NetworkTs.currentNetwork, NetworkTs.hasWeb3Instance.
  assert (Hfound : forall predicate n,
             NetworkTs.find_network predicate = Some n ->
             (if NetworkTs.id n =? 0 then 0 else NetworkTs.id n) = 0 \/
             exists m, In m (map snd NetworkTs.networks) /\
                       NetworkTs.id m = (if NetworkTs.id n =? 0 then 0 else NetworkTs.id n)).
  { intros predicate n Hn. apply find_some in Hn. destruct Hn as [Hn _].
    destruct (NetworkTs.id n =? 0); [now left|]. right. now exists n. }
  destruct (NetworkTs.truthy (NetworkTs.NETWORK env)).
  - destruct (NetworkTs.find_network _) as [n|] eqn:Hfind; intro H;
      injection H as Hc Hs; subst; split; try reflexivity.
    + exact (Hfound _ n Hfind).
    + now left.
  - destruct (NetworkTs.web3Instance st) as [i|] eqn:Hst.
    + rewrite (web3_with_instance env st i Hst).
      destruct (NetworkTs.eth_getChainId i) as [chain|]; [|discriminate].
      destruct (NetworkTs.find_network _) as [n|] eqn:Hfind; intro H;
        injection H as Hc Hs; subst; split; try reflexivity.
      * exact (Hfound _ n Hfind).
      * now left.
    + intro H. injection H as Hc Hs. subst. split; [reflexivity | now left].
Qed.

Lemma chainId_known_or_zero_witness :
  let i := NetworkTs.mkInstance (web3_of_chain (twelve_seconds 20000)) (Some 56) in
  NetworkTs.mkState (Some i) = NetworkTs.mkState (Some i) /\
  (56 = 0 \/ exists n, In n (map snd NetworkTs.networks) /\ NetworkTs.id n = 56).
Proof.
  intro i.
  apply (chainId_known_or_zero (NetworkTs.mkEnv None None None)
                               (NetworkTs.mkState (Some i)) (NetworkTs.mkState (Some i)) 56).
  reflexivity.
Defined.

(** Under hardhat, with [NETWORK] unset and no instance set, [chainId()]
    returns 0 because [hasWeb3Instance()] does not load the hardhat
    instance; after one call of [web3()] the same [chainId()] returns the
    chain of the hardhat instance. *)
Theorem chainId_before_and_after_web3 (env : NetworkTs.Env) (i : NetworkTs.Instance)
        (n : NetworkTs.Network) :
  In n (map snd NetworkTs.networks) ->
  NetworkTs.truthy (NetworkTs.NETWORK env) = false ->
  NetworkTs.truthy (NetworkTs.NODE env) = true ->
  NetworkTs.hardhat_web3 env = Some i ->
  NetworkTs.eth_getChainId i = Some (NetworkTs.id n) ->
  let st := NetworkTs.mkState None in
  let st' := snd (NetworkTs.web3 env st) in
  NetworkTs.chainId env st = (NetworkTs.Returns 0, st) /\
  NetworkTs.chainId env st' = (NetworkTs.Returns (NetworkTs.id n), st').
Proof.
  intros Hin Henv Hnode Hhardhat Hchain st st'. split.
  - unfold NetworkTs.chainId, NetworkTs.currentNetwork. now rewrite Henv.
  - apply (chainId_of_instance env st' i n Hin Henv); [|exact Hchain].
    unfold st', st, NetworkTs.web3. cbn [NetworkTs.web3Instance].
    rewrite Hnode. cbn [NetworkTs.web3Instance]. now rewrite Hhardhat.
Qed.

Lemma chainId_before_and_after_web3_witness :
  let i := NetworkTs.mkInstance (web3_of_chain (twelve_seconds 20000)) (Some 1) in
  let env := NetworkTs.mkEnv None (Some "1"%string) (Some i) in
  NetworkTs.chainId env (NetworkTs.mkState None)
  = (NetworkTs.Returns 0, NetworkTs.mkState None) /\
  NetworkTs.chainId env (snd (NetworkTs.web3 env (NetworkTs.mkState None)))
  = (NetworkTs.Returns 1, snd (NetworkTs.web3 env (NetworkTs.mkState None))).
Proof.
  intros i env.
  apply (chainId_before_and_after_web3 env i
           (NetworkTs.mkNetwork 1 "Ethereum" "eth" "https://eth.llamarpc.com"));
    try reflexivity.
  simpl. tauto.
Defined.

End CurrentNetwork.

(** * Double precision at the evaluated inputs *)

Section DoublePrecision.

(** At the inputs where this file evaluates [findBlock], the computation in
    double precision and the one in exact rationals have the same outcome
    and send the same requests. *)
Lemma findBlock_double_agrees :
  (forall fuel,
      Double.findBlock fuel 1030000000 (web3_of_chain (twelve_seconds 5000))
      = findBlock fuel 1030000000 (web3_of_chain (twelve_seconds 5000)))
  /\ (forall fuel,
         Double.findBlock (S fuel) 999000000 (web3_of_chain (twelve_seconds 20000))
         = findBlock (S fuel) 999000000 (web3_of_chain (twelve_seconds 20000)))
  /\ (forall fuel,
         Double.findBlock (S (S fuel)) 1019999000 (web3_of_chain same_second_head)
         = findBlock (S (S fuel)) 1019999000 (web3_of_chain same_second_head))
  /\ (forall fuel,
         Double.findBlock (S (S fuel)) 1180006000 (web3_of_chain (uniform 1000000 12 20000))
         = findBlock (S (S fuel)) 1180006000 (web3_of_chain (uniform 1000000 12 20000)))
  /\ (forall fuel,
         Double.findBlock (S (S fuel)) 1180000000 (web3_of_chain (uniform 1000000 12 20000))
         = findBlock (S (S fuel)) 1180000000 (web3_of_chain (uniform 1000000 12 20000)))
  /\ Double.search 1000 (PrimFloat.div (Double.of_Z 1025001000) (Double.of_Z 1000))
                   (Double.of_Z 1) (blockAt paired_blocks 25000) POSITIVE_INFINITY
                   (web3_of_chain paired_blocks)
     = search 1000 (inject_Z 1025001000 / 1000) 1
              (blockAt paired_blocks 25000) POSITIVE_INFINITY
              (web3_of_chain paired_blocks).
Proof.
  repeat split; try intro fuel; vm_compute; reflexivity.
Qed.

End DoublePrecision.
